(** * GutCheck colour-asset generators

    A shallow embedding of the two scripts

      - [GutCheck/GutCheck.xcodeproj/generate_color_assets.py]
      - [GutCheck/create_colors.py]

    and of the parts of the Python runtime they call: [str.lstrip],
    slicing, [int(s, 16)], binary64 division, the [.3f] format,
    [json.dump(.., indent=2)], [Path.exists], [Path.mkdir(exist_ok=True)]
    and [open(.., 'w')].

    Python strings are modelled by Rocq strings, one character per code
    point in U+0000..U+00FF; text printed on standard output is kept as
    the UTF-8 bytes that reach the terminal.  Floats are the kernel's
    binary64 numbers, so [n / 255.0] is the very operation CPython
    performs.  The file system is a finite map from relative POSIX paths
    (lists of components below the working directory) to nodes. *)

From Stdlib Require Import ZArith Floats Ascii String List Lia.
From stdpp Require Import base strings list gmap pretty.

Open Scope Z_scope.

(* ===================================================================== *)
(** ** Python strings *)
(* ===================================================================== *)

Module PyStr.

(** [s.lstrip(c)]: drop every leading occurrence of the character [c]. *)
Fixpoint lstrip (c : ascii) (s : string) : string :=
  match s with
  | String a s' => if Ascii.eqb a c then lstrip c s' else s
  | EmptyString => s
  end.

Fixpoint drop (n : nat) (s : string) : string :=
  match n, s with
  | O, _ => s
  | S n', String _ s' => drop n' s'
  | S _, EmptyString => EmptyString
  end.

Fixpoint take (n : nat) (s : string) : string :=
  match n, s with
  | S n', String a s' => String a (take n' s')
  | _, _ => EmptyString
  end.

(** [s[i:j]] for [0 <= i <= j]: the slice is clipped to the string. *)
Definition slice (i j : nat) (s : string) : string :=
  take (j - i) (drop i s).

(** [c * n]: [n] copies of a one-character string. *)
Fixpoint replicate (n : nat) (c : ascii) : string :=
  match n with
  | O => EmptyString
  | S n' => String c (replicate n' c)
  end.

(** [sep.join(l)]. *)
Fixpoint join (sep : string) (l : list string) : string :=
  match l with
  | [] => EmptyString
  | [x] => x
  | x :: l' => x +:+ sep +:+ join sep l'
  end.

Definition code (c : ascii) : Z := Z.of_N (N_of_ascii c).

(** The digit table of [int]: ['0'..'9'] are 0..9, letters of either
    case are 10..35, every other character is 37. *)
Definition digit_value (c : ascii) : Z :=
  let n := code c in
  if (48 <=? n) && (n <=? 57) then n - 48
  else if (97 <=? n) && (n <=? 122) then n - 87
  else if (65 <=? n) && (n <=? 90) then n - 55
  else 37.

Definition is_hex_digit (c : ascii) : bool := digit_value c <? 16.

(** White space as [int] sees it: TAB, LF, VT, FF, CR, SPACE, and the
    two Latin-1 spaces NEL and NBSP, which are turned into SPACE before
    the number is read. *)
Definition is_space (c : ascii) : bool :=
  let n := code c in
  ((9 <=? n) && (n <=? 13)) || (n =? 32) || (n =? 133) || (n =? 160).

Fixpoint skip_spaces (s : string) : string :=
  match s with
  | String a s' => if is_space a then skip_spaces s' else s
  | EmptyString => s
  end.

(** The digit scan of [int(s, 16)].  [prev_us] tells whether the
    previous character was an underscore, [ndig] counts the digits read
    and [acc] is their value.  The scan stops at the first character
    that is neither a digit below 16 nor an underscore; two underscores
    in a row, or an underscore at the end of the digits, are errors. *)
Fixpoint scan16 (s : string) (prev_us : bool) (ndig : nat) (acc : Z)
  : option (Z * nat * string) :=
  match s with
  | String a s' =>
      if Ascii.eqb a "_" then
        if prev_us then None else scan16 s' true ndig acc
      else if is_hex_digit a then
        scan16 s' false (S ndig) (16 * acc + digit_value a)
      else if prev_us then None else Some (acc, ndig, s)
  | EmptyString => if prev_us then None else Some (acc, ndig, s)
  end.

(** [int(s, 16)]; [None] stands for [ValueError].  White space, then a
    sign, then an optional [0x] or [0X] (which may be followed by one
    underscore), then at least one digit, then white space up to the
    end of the string. *)
Definition int16 (s : string) : option Z :=
  let s1 := skip_spaces s in
  let '(neg, s2) :=
    match s1 with
    | String "+" r => (false, r)
    | String "-" r => (true, r)
    | _ => (false, s1)
    end in
  let s3 :=
    match s2 with
    | String "0" (String x r) =>
        if Ascii.eqb x "x" || Ascii.eqb x "X" then
          match r with
          | String "_" r' => r'
          | _ => r
          end
        else s2
    | _ => s2
    end in
  match s3 with
  | String "_" _ => None
  | _ =>
      match scan16 s3 false 0 0 with
      | Some (v, S _, rest) =>
          match skip_spaces rest with
          | EmptyString => Some (if neg then - v else v)
          | String _ _ => None
          end
      | _ => None
      end
  end.

End PyStr.

(* ===================================================================== *)
(** ** Python floats *)
(* ===================================================================== *)

Module PyFloat.

(** [float(n)] for an integer of small magnitude (exact below 2^53). *)
Definition of_int (n : Z) : float :=
  if n <? 0 then PrimFloat.opp (PrimFloat.of_uint63 (Uint63.of_Z (- n)))
  else PrimFloat.of_uint63 (Uint63.of_Z n).

(** [n / 255.0]: the integer is converted, then divided in binary64. *)
Definition div255 (n : Z) : float :=
  PrimFloat.div (of_int n) 255%float.

(** Nearest integer to [num / den], ties to even ([0 <= num], [0 < den]). *)
Definition round_half_even (num den : Z) : Z :=
  let q := num / den in
  let r := num mod den in
  if 2 * r <? den then q
  else if den <? 2 * r then q + 1
  else if Z.even q then q else q + 1.

Definition digit_char (d : Z) : ascii := ascii_of_N (Z.to_N (48 + d)).

(** Three decimal digits of [0 <= k < 1000], zero padded. *)
Definition pad3 (k : Z) : string :=
  String (digit_char (k / 100))
    (String (digit_char (k / 10 mod 10))
       (String (digit_char (k mod 10)) EmptyString)).

Definition sign_prefix (s : bool) : string := if s then "-" else "".

(** The number of thousandths nearest to [m * 2^e]. *)
Definition thousandths (m : positive) (e : Z) : Z :=
  if 0 <=? e then 1000 * Z.pos m * 2 ^ e
  else round_half_even (1000 * Z.pos m) (2 ^ (- e)).

(** [f"{x:.3f}"]: the exact binary value of [x], correctly rounded to
    three decimal places. *)
Definition format_3f (x : float) : string :=
  match Prim2SF x with
  | S754_nan => "nan"
  | S754_infinity s => sign_prefix s +:+ "inf"
  | S754_zero s => sign_prefix s +:+ "0.000"
  | S754_finite s m e =>
      let k := thousandths m e in
      sign_prefix s +:+ pretty (k / 1000) +:+ "." +:+ pad3 (k mod 1000)
  end.

End PyFloat.

(* ===================================================================== *)
(** ** JSON values and [json.dump(.., indent=2)] *)
(* ===================================================================== *)

Module Json.

(** The values the scripts build: strings, integers, lists, and
    dictionaries in insertion order. *)
#[local] Set Warnings "-register-all".
Inductive json : Type :=
| JStr (s : string)
| JInt (n : Z)
| JList (l : list json)
| JDict (d : list (string * json)).

Definition hex_char (d : Z) : ascii :=
  if d <? 10 then ascii_of_N (Z.to_N (48 + d)) else ascii_of_N (Z.to_N (87 + d)).

(** One character of a JSON string, with [ensure_ascii] on. *)
Definition escape_char (c : ascii) : string :=
  let n := PyStr.code c in
  if n =? 34 then String "\" (String "034" EmptyString)
  else if n =? 92 then String "\" (String "\" EmptyString)
  else if n =? 10 then "\n"
  else if n =? 13 then "\r"
  else if n =? 9 then "\t"
  else if n =? 12 then "\f"
  else if n =? 8 then "\b"
  else if (32 <=? n) && (n <=? 126) then String c EmptyString
  else "\u00" +:+ String (hex_char (n / 16)) (String (hex_char (n mod 16)) EmptyString).

Fixpoint escape (s : string) : string :=
  match s with
  | String c s' => escape_char c +:+ escape s'
  | EmptyString => EmptyString
  end.

Definition quote (s : string) : string :=
  String "034" (escape s +:+ String "034" EmptyString).

Definition newline_indent (lvl : nat) : string :=
  String "010" (PyStr.replicate (2 * lvl) " ").

Definition block (op cl : string) (lvl : nat) (items : list string) : string :=
  match items with
  | [] => op +:+ cl
  | _ => op +:+ newline_indent (S lvl)
         +:+ PyStr.join ("," +:+ newline_indent (S lvl)) items
         +:+ newline_indent lvl +:+ cl
  end.

(** The text of a value nested [lvl] levels deep. *)
Fixpoint dumps_at (lvl : nat) (j : json) {struct j} : string :=
  match j with
  | JStr s => quote s
  | JInt n => pretty n
  | JList l => block "[" "]" lvl (map (dumps_at (S lvl)) l)
  | JDict d =>
      block "{" "}" lvl
        (map (fun kv => quote (fst kv) +:+ ": " +:+ dumps_at (S lvl) (snd kv)) d)
  end.

Definition dumps (j : json) : string := dumps_at 0 j.

(** [d[k]] on a dictionary, [l[i]] on a list. *)
Fixpoint assoc (k : string) (d : list (string * json)) : option json :=
  match d with
  | [] => None
  | (k', v) :: d' => if String.eqb k' k then Some v else assoc k d'
  end.

Definition get (k : string) (j : json) : option json :=
  match j with
  | JDict d => assoc k d
  | _ => None
  end.

Definition item (i : nat) (j : json) : option json :=
  match j with
  | JList l => nth_error l i
  | _ => None
  end.

Definition keys (j : json) : list string :=
  match j with
  | JDict d => map fst d
  | _ => []
  end.

(** Every value stored under the key [k], at any depth. *)
Fixpoint values_of (k : string) (j : json) {struct j} : list json :=
  match j with
  | JList l => flat_map (values_of k) l
  | JDict d =>
      flat_map (fun kv =>
                  (if String.eqb (fst kv) k then [snd kv] else [])
                    ++ values_of k (snd kv)) d
  | _ => []
  end.

End Json.
Export Json.

(* ===================================================================== *)
(** ** Exceptions, the file system and standard output *)
(* ===================================================================== *)

Inductive exn : Type :=
| ValueError
| FileNotFoundError
| FileExistsError
| NotADirectoryError
| IsADirectoryError
| SystemExit (code : Z).

Inductive res (A : Type) : Type :=
| Ok (a : A)
| Raise (e : exn).
Arguments Ok {A} a.
Arguments Raise {A} e.

Definition res_bind {A B : Type} (r : res A) (k : A -> res B) : res B :=
  match r with
  | Ok a => k a
  | Raise e => Raise e
  end.

Notation "'let?' x := r 'in' k" := (res_bind r (fun x => k))
  (at level 10, x pattern, r at level 100, k at level 200).

(** [int(s, 16)] as a computation that may raise. *)
Definition py_int16 (s : string) : res Z :=
  match PyStr.int16 s with
  | Some n => Ok n
  | None => Raise ValueError
  end.

(** A relative path: its components below the working directory. *)
Definition path : Type := list string.

Inductive node : Type :=
| Dir
| File (text : string).

(** What a run did to the file system, in order. *)
Inductive event : Type :=
| Mkdir (p : path)
| Write (p : path) (text : string).

Record world : Type := World {
  fs : gmap (list string) node;
  out : list string;
  trace : list event
}.

Module Pathlib.

(** The components of a path written with [/]; empty components and
    [.] are dropped, as [pathlib] does. *)
Fixpoint split_slash (s cur : string) : list string :=
  match s with
  | String c s' =>
      if Ascii.eqb c "/" then String.rev cur :: split_slash s' EmptyString
      else split_slash s' (String c cur)
  | EmptyString => [String.rev cur]
  end.

Definition keep_part (s : string) : bool :=
  negb (String.eqb s "" || String.eqb s ".").

Definition parts (s : string) : list string :=
  List.filter keep_part (split_slash s EmptyString).

(** [Path(s)] for a relative [s]. *)
Definition Path (s : string) : path := parts s.

(** [p / s] for a relative [s]. *)
Definition joinpath (p : path) (s : string) : path := p ++ parts s.

(** [str(p)]. *)
Definition str (p : path) : string :=
  match p with
  | [] => "."
  | _ => PyStr.join "/" p
  end.

Definition parent (p : path) : path := removelast p.

(** The node at [p]; the working directory itself is a directory. *)
Definition node_at (m : gmap (list string) node) (p : path) : option node :=
  match p with
  | [] => Some Dir
  | _ => m !! p
  end.

End Pathlib.

Notation "p // s" := (Pathlib.joinpath p s) (at level 40, left associativity).

(** Computations of a script: they read and change the world and
    either return a value or raise. *)
Definition M (A : Type) : Type := world -> res A * world.

Definition ret {A : Type} (a : A) : M A := fun w => (Ok a, w).

Definition bind {A B : Type} (m : M A) (k : A -> M B) : M B :=
  fun w =>
    match m w with
    | (Ok a, w') => k a w'
    | (Raise e, w') => (Raise e, w')
    end.

Definition raise {A : Type} (e : exn) : M A := fun w => (Raise e, w).

Definition lift {A : Type} (r : res A) : M A := fun w => (r, w).

Notation "x <- m ;; k" := (bind m (fun x => k))
  (at level 100, m at next level, right associativity).
Notation "m ;; k" := (bind m (fun _ => k))
  (at level 100, right associativity).

(** [for x in items: s = body(s, x)], the loop variables kept in [s]. *)
Fixpoint for_each {A S : Type} (items : list A) (body : S -> A -> M S) (s : S)
  : M S :=
  match items with
  | [] => ret s
  | x :: rest => s' <- body s x ;; for_each rest body s'
  end.

(** [print(s)]. *)
Definition print (s : string) : M unit :=
  fun w => (Ok tt, World (fs w) (out w ++ [s]) (trace w)).

(** [exit(code)]. *)
Definition py_exit {A : Type} (code : Z) : M A := raise (SystemExit code).

(** [p.exists()]. *)
Definition path_exists (p : path) : M bool :=
  fun w => (Ok (bool_decide (is_Some (Pathlib.node_at (fs w) p))), w).

(** [p.mkdir(exist_ok=True)]: the parent must be a directory; an
    existing directory is left alone, any other existing node is an
    error. *)
Definition mkdir_exist_ok (p : path) : M unit :=
  fun w =>
    match Pathlib.node_at (fs w) (Pathlib.parent p) with
    | None => (Raise FileNotFoundError, w)
    | Some (File _) => (Raise NotADirectoryError, w)
    | Some Dir =>
        match Pathlib.node_at (fs w) p with
        | None => (Ok tt, World (<[p := Dir]> (fs w)) (out w) (trace w ++ [Mkdir p]))
        | Some Dir => (Ok tt, w)
        | Some (File _) => (Raise FileExistsError, w)
        end
    end.

(** [with open(p, 'w') as f: json.dump(j, f, indent=2)]. *)
Definition write_json (p : path) (j : json) : M unit :=
  fun w =>
    match Pathlib.node_at (fs w) (Pathlib.parent p) with
    | None => (Raise FileNotFoundError, w)
    | Some (File _) => (Raise NotADirectoryError, w)
    | Some Dir =>
        match Pathlib.node_at (fs w) p with
        | Some Dir => (Raise IsADirectoryError, w)
        | _ =>
            let text := Json.dumps j in
            (Ok tt, World (<[p := File text]> (fs w)) (out w)
                      (trace w ++ [Write p text]))
        end
    end.

(** How the interpreter ends: a status passed to [exit], the end of the
    script, or a traceback for an exception nobody caught (status 1). *)
Inductive outcome : Type :=
| Exited (status : Z)
| Crashed (e : exn).

Definition exit_status (o : outcome) : Z :=
  match o with
  | Exited n => n
  | Crashed _ => 1
  end.

Definition run_script (script : M unit) (w : world) : outcome * world :=
  match script w with
  | (Ok _, w') => (Exited 0, w')
  | (Raise (SystemExit n), w') => (Exited n, w')
  | (Raise e, w') => (Crashed e, w')
  end.

Definition newline : string := String "010" EmptyString.

(* ===================================================================== *)
(** ** generate_color_assets.py *)
(* ===================================================================== *)

Module GenerateColorAssets.

Definition COLORS : list (string * (string * string)) :=
  [ ("PrimaryColor", ("#0891B2", "#06B6D4"));
    ("AccentColor", ("#F97316", "#FB923C"));
    ("SecondaryColor", ("#8B5CF6", "#A78BFA"));
    ("BackgroundColor", ("#FFFFFF", "#0F172A"));
    ("CardBackground", ("#F8FAFC", "#1E293B"));
    ("SurfaceColor", ("#F1F5F9", "#334155"));
    ("PrimaryText", ("#0F172A", "#F8FAFC"));
    ("SecondaryText", ("#475569", "#CBD5E1"));
    ("TertiaryText", ("#94A3B8", "#64748B"));
    ("SuccessColor", ("#10B981", "#34D399"));
    ("WarningColor", ("#F59E0B", "#FBBF24"));
    ("ErrorColor", ("#EF4444", "#F87171"));
    ("InfoColor", ("#3B82F6", "#60A5FA"));
    ("BorderColor", ("#E2E8F0", "#334155"));
    ("DisabledColor", ("#CBD5E1", "#475569"));
    ("InputBackground", ("#F8FAFC", "#1E293B"));
    ("SymptomColor", ("#EC4899", "#F472B6")) ]%string.

Definition hex_to_rgb (hex_color : string) : res (float * float * float) :=
  let hex_color := PyStr.lstrip "#" hex_color in
  let? r := res_bind (py_int16 (PyStr.slice 0 2 hex_color))
              (fun n => Ok (PyFloat.div255 n)) in
  let? g := res_bind (py_int16 (PyStr.slice 2 4 hex_color))
              (fun n => Ok (PyFloat.div255 n)) in
  let? b := res_bind (py_int16 (PyStr.slice 4 6 hex_color))
              (fun n => Ok (PyFloat.div255 n)) in
  Ok (r, g, b).

Definition create_color_json (light_hex dark_hex : string) : res json :=
  let? (light_r, light_g, light_b) := hex_to_rgb light_hex in
  let? (dark_r, dark_g, dark_b) := hex_to_rgb dark_hex in
  Ok (JDict
    [ ("colors", JList
        [ JDict
            [ ("color", JDict
                [ ("color-space", JStr "srgb");
                  ("components", JDict
                    [ ("alpha", JStr "1.000");
                      ("blue", JStr (PyFloat.format_3f light_b));
                      ("green", JStr (PyFloat.format_3f light_g));
                      ("red", JStr (PyFloat.format_3f light_r)) ]) ]);
              ("idiom", JStr "universal") ];
          JDict
            [ ("appearances", JList
                [ JDict
                    [ ("appearance", JStr "luminosity");
                      ("value", JStr "dark") ] ]);
              ("color", JDict
                [ ("color-space", JStr "srgb");
                  ("components", JDict
                    [ ("alpha", JStr "1.000");
                      ("blue", JStr (PyFloat.format_3f dark_b));
                      ("green", JStr (PyFloat.format_3f dark_g));
                      ("red", JStr (PyFloat.format_3f dark_r)) ]) ]);
              ("idiom", JStr "universal") ] ]);
      ("info", JDict
        [ ("author", JStr "xcode");
          ("version", JInt 1) ]) ]%string).

Definition assets_path : path := Pathlib.Path "GutCheck/Assets.xcassets".

(** The body of the first loop of [main]; [created_count] is the
    loop-carried variable. *)
Definition create_one (created_count : Z) (entry : string * (string * string))
  : M Z :=
  let '(color_name, (light_hex, dark_hex)) := entry in
  print ("   Creating " +:+ color_name +:+ "...") ;;
  let colorset_path := assets_path // (color_name +:+ ".colorset") in
  mkdir_exist_ok colorset_path ;;
  color_json <- lift (create_color_json light_hex dark_hex) ;;
  let contents_path := colorset_path // "Contents.json" in
  write_json contents_path color_json ;;
  ret (created_count + 1).

Definition list_one (_ : unit) (entry : string * (string * string)) : M unit :=
  let '(color_name, (light_hex, dark_hex)) := entry in
  print ("   • " +:+ color_name +:+ ": " +:+ light_hex +:+ " / " +:+ dark_hex).

Definition main : M Z :=
  print "🎨 GutCheck Color Assets Generator (Python)" ;;
  print (PyStr.replicate 50 "=") ;;
  print "" ;;
  found <- path_exists assets_path ;;
  if negb found then
    print ("❌ Error: " +:+ Pathlib.str assets_path +:+ " not found!") ;;
    print "Please run this script from your project root directory." ;;
    ret 1
  else
    print ("✅ Found Assets.xcassets at: " +:+ Pathlib.str assets_path) ;;
    print "" ;;
    created_count <- for_each COLORS create_one 0 ;;
    print "" ;;
    print (PyStr.replicate 50 "=") ;;
    print ("✅ Successfully created " +:+ pretty created_count
             +:+ " color assets!") ;;
    print "" ;;
    print "📋 Next Steps:" ;;
    print "1. Open your Xcode project" ;;
    print "2. The colors should now appear in Assets.xcassets" ;;
    print "3. If Xcode is already open:" ;;
    print "   - Close and reopen the project, OR" ;;
    print "   - Clean build folder (Cmd+Shift+K)" ;;
    print "4. Build and run your app" ;;
    print "" ;;
    print "🎨 Colors created with Light/Dark mode support:" ;;
    for_each COLORS list_one tt ;;
    print "" ;;
    ret 0.

(** [if __name__ == "__main__": exit(main())]. *)
Definition script : M unit :=
  status <- main ;;
  py_exit status.

Definition run : world -> outcome * world := run_script script.

End GenerateColorAssets.

(* ===================================================================== *)
(** ** create_colors.py *)
(* ===================================================================== *)

Module CreateColors.

Definition COLORS : list (string * (string * string)) :=
  [ ("GutCheckPrimary", ("#0891B2", "#06B6D4"));
    ("GutCheckAccent", ("#F97316", "#FB923C"));
    ("GutCheckSecondary", ("#8B5CF6", "#A78BFA"));
    ("GutCheckBackground", ("#FFFFFF", "#0F172A"));
    ("GutCheckCardBackground", ("#F8FAFC", "#1E293B"));
    ("GutCheckSurface", ("#F1F5F9", "#334155"));
    ("GutCheckPrimaryText", ("#0F172A", "#F8FAFC"));
    ("GutCheckSecondaryText", ("#475569", "#CBD5E1"));
    ("GutCheckTertiaryText", ("#94A3B8", "#64748B"));
    ("GutCheckSuccess", ("#10B981", "#34D399"));
    ("GutCheckWarning", ("#F59E0B", "#FBBF24"));
    ("GutCheckError", ("#EF4444", "#F87171"));
    ("GutCheckInfo", ("#3B82F6", "#60A5FA"));
    ("GutCheckBorder", ("#E2E8F0", "#334155"));
    ("GutCheckDisabled", ("#CBD5E1", "#475569"));
    ("GutCheckInputBackground", ("#F8FAFC", "#1E293B"));
    ("GutCheckSymptom", ("#EC4899", "#F472B6")) ]%string.

(** [tuple(f(i) for i in idx)]: the elements are computed in order and
    the first exception ends the generator. *)
Fixpoint tuple_of {A B : Type} (f : A -> res B) (idx : list A) : res (list B) :=
  match idx with
  | [] => Ok []
  | i :: rest =>
      let? x := f i in
      let? xs := tuple_of f rest in
      Ok (x :: xs)
  end.

Definition hex_to_rgb (h : string) : res (list float) :=
  let h := PyStr.lstrip "#" h in
  tuple_of (fun i => let? n := py_int16 (PyStr.slice i (i + 2) h) in
                     Ok (PyFloat.div255 n))
           [0; 2; 4]%nat.

(** [a, b, c = t]. *)
Definition unpack3 {A : Type} (t : list A) : res (A * A * A) :=
  match t with
  | [a; b; c] => Ok (a, b, c)
  | _ => Raise ValueError
  end.

(** The dictionary literal bound to [data] in the loop. *)
Definition data_of (lr lg lb dr dg db : float) : json :=
  JDict
    [ ("colors", JList
        [ JDict
            [ ("color", JDict
                [ ("color-space", JStr "srgb");
                  ("components", JDict
                    [ ("alpha", JStr "1.000");
                      ("blue", JStr (PyFloat.format_3f lb));
                      ("green", JStr (PyFloat.format_3f lg));
                      ("red", JStr (PyFloat.format_3f lr)) ]) ]);
              ("idiom", JStr "universal") ];
          JDict
            [ ("appearances", JList
                [ JDict [ ("appearance", JStr "luminosity");
                          ("value", JStr "dark") ] ]);
              ("color", JDict
                [ ("color-space", JStr "srgb");
                  ("components", JDict
                    [ ("alpha", JStr "1.000");
                      ("blue", JStr (PyFloat.format_3f db));
                      ("green", JStr (PyFloat.format_3f dg));
                      ("red", JStr (PyFloat.format_3f dr)) ]) ]);
              ("idiom", JStr "universal") ] ]);
      ("info", JDict [ ("author", JStr "xcode"); ("version", JInt 1) ]) ]%string.

(** The two conversions of the loop body and the value of [data]. *)
Definition data (light dark : string) : res json :=
  let? (lr, lg, lb) := res_bind (hex_to_rgb light) unpack3 in
  let? (dr, dg, db) := res_bind (hex_to_rgb dark) unpack3 in
  Ok (data_of lr lg lb dr dg db).

Definition assets_path : path := Pathlib.Path "GutCheck/Assets.xcassets".

(** The body of the loop. *)
Definition create_one (_ : unit) (entry : string * (string * string)) : M unit :=
  let '(name, (light, dark)) := entry in
  print ("   ✓ " +:+ name) ;;
  let path := assets_path // (name +:+ ".colorset") in
  mkdir_exist_ok path ;;
  d <- lift (data light dark) ;;
  write_json (path // "Contents.json") d.

Definition script : M unit :=
  found <- path_exists assets_path ;;
  (if negb found then
     print ("❌ Error: " +:+ Pathlib.str assets_path +:+ " not found!") ;;
     py_exit 1
   else ret tt) ;;
  print "🎨 Creating GutCheck color assets..." ;;
  for_each COLORS create_one tt ;;
  print (newline +:+ "✅ Created " +:+ pretty (Z.of_nat (length COLORS))
           +:+ " color assets!") ;;
  print (newline +:+ "📋 Next steps:") ;;
  print "1. Close Xcode if it's open" ;;
  print "2. Reopen Xcode" ;;
  print "3. Clean Build (Cmd+Shift+K)" ;;
  print "4. Build & Run".

Definition run : world -> outcome * world := run_script script.

End CreateColors.


(* ===================================================================== *)
(** ** Vocabulary of the statements *)
(* ===================================================================== *)

Module G := GenerateColorAssets.
Module CC := CreateColors.

Definition all_ascii : list ascii := map ascii_of_nat (seq 0 256).

Definition bytes : list Z := map Z.of_nat (seq 0 256).

(** The value of a pair of hexadecimal digits. *)
Definition pair_value (a b : ascii) : Z :=
  16 * PyStr.digit_value a + PyStr.digit_value b.

(** The three bytes of a string of the form [#RRGGBB]. *)
Definition hex_bytes (s : string) : option (Z * Z * Z) :=
  match s with
  | String "#" (String c1 (String c2 (String c3 (String c4 (String c5
      (String c6 EmptyString)))))) =>
      if forallb PyStr.is_hex_digit [c1; c2; c3; c4; c5; c6]
      then Some (pair_value c1 c2, pair_value c3 c4, pair_value c5 c6)
      else None
  | _ => None
  end.

Definition is_hex_color (s : string) : bool :=
  match hex_bytes s with
  | Some _ => true
  | None => false
  end.

(** The first six characters exist and are hexadecimal digits. *)
Definition hex_prefix6 (h : string) : bool :=
  (String.length (PyStr.take 6 h) =? 6)%nat
  && forallb PyStr.is_hex_digit (list_ascii_of_string (PyStr.take 6 h)).

(** What [int(s, 16)] makes of a string of at most two characters:
    one digit; two digits; a digit after a white-space character or a
    sign; a digit before a white-space character. *)
Definition literal_value (s : string) : option Z :=
  match s with
  | String a EmptyString =>
      if PyStr.is_hex_digit a then Some (PyStr.digit_value a) else None
  | String a (String b EmptyString) =>
      if PyStr.is_hex_digit a && PyStr.is_hex_digit b then Some (pair_value a b)
      else if PyStr.is_hex_digit b && (PyStr.is_space a || Ascii.eqb a "+")
      then Some (PyStr.digit_value b)
      else if PyStr.is_hex_digit b && Ascii.eqb a "-"
      then Some (- PyStr.digit_value b)
      else if PyStr.is_hex_digit a && PyStr.is_space b
      then Some (PyStr.digit_value a)
      else None
  | _ => None
  end.

Definition literal_ok (s : string) : bool :=
  match literal_value s with
  | Some _ => true
  | None => false
  end.

(** The three slices [h[0:2]], [h[2:4]], [h[4:6]] read as integers. *)
Definition slice_values (h : string) : option (Z * Z * Z) :=
  match literal_value (PyStr.slice 0 2 h),
        literal_value (PyStr.slice 2 4 h),
        literal_value (PyStr.slice 4 6 h) with
  | Some r, Some g, Some b => Some (r, g, b)
  | _, _, _ => None
  end.

Definition slices_ok (h : string) : bool :=
  literal_ok (PyStr.slice 0 2 h) && literal_ok (PyStr.slice 2 4 h)
  && literal_ok (PyStr.slice 4 6 h).

(** [0.0 <= x <= 1.0] in binary64. *)
Definition in_unit_interval (x : float) : bool :=
  PrimFloat.leb 0%float x && PrimFloat.leb x 1%float.

(** The float [x] is within [2^-54] of the rational [n / 255]. *)
Definition close_to_ratio (n : Z) (x : float) : bool :=
  match Prim2SF x with
  | S754_zero _ => n =? 0
  | S754_finite false m e =>
      if e <? 0
      then Z.abs (255 * Z.pos m - n * 2 ^ (- e)) * 2 ^ 54 <=? 255 * 2 ^ (- e)
      else 255 * Z.pos m * 2 ^ e =? n
  | _ => false
  end.

Definition decimal_digit (c : ascii) : option Z :=
  let n := PyStr.code c in
  if (48 <=? n) && (n <=? 57) then Some (n - 48) else None.

(** The thousandths [k] written by a string of the form [d.ddd]. *)
Definition thousandths_of (s : string) : option Z :=
  match s with
  | String d0 (String "." (String d1 (String d2 (String d3 EmptyString)))) =>
      match decimal_digit d0, decimal_digit d1, decimal_digit d2, decimal_digit d3 with
      | Some a, Some b, Some c, Some d => Some (1000 * a + 100 * b + 10 * c + d)
      | _, _, _, _ => None
      end
  | _ => None
  end.

(** [s] is a decimal string with exactly three decimal places, and it is
    [n / 255] rounded to the nearest thousandth. *)
Definition rendered_3dp (n : Z) (s : string) : bool :=
  match thousandths_of s with
  | Some k => 2 * Z.abs (255 * k - 1000 * n) <=? 255
  | None => false
  end.

(** The component string of a byte. *)
Definition component (n : Z) : string := PyFloat.format_3f (PyFloat.div255 n).

(** The fixed schema, following the words of the specification: an srgb
    colour of universal idiom, with or without appearances. *)
Definition srgb_color (appearances : list (string * json)) (r g b : string) : json :=
  JDict (appearances ++
    [ ("color", JDict
        [ ("color-space", JStr "srgb");
          ("components", JDict
            [ ("alpha", JStr "1.000"); ("blue", JStr b);
              ("green", JStr g); ("red", JStr r) ]) ]);
      ("idiom", JStr "universal") ]%string).

Definition dark_appearance : list (string * json) :=
  [ ("appearances", JList
      [ JDict [ ("appearance", JStr "luminosity"); ("value", JStr "dark") ] ]) ]%string.

Definition schema (lr lg lb dr dg db : string) : json :=
  JDict
    [ ("colors", JList [ srgb_color [] lr lg lb;
                         srgb_color dark_appearance dr dg db ]);
      ("info", JDict [ ("author", JStr "xcode"); ("version", JInt 1) ]) ]%string.

(** [j["colors"][i]["color"]["components"][key]]. *)
Definition component_at (i : nat) (key : string) (j : json) : option json :=
  match Json.get "colors" j with
  | Some cs =>
      match Json.item i cs with
      | Some c =>
          match Json.get "color" c with
          | Some col =>
              match Json.get "components" col with
              | Some comps => Json.get key comps
              | None => None
              end
          | None => None
          end
      | None => None
      end
  | None => None
  end.

(** The naming convention that relates the two tables: the suffix
    [Color] is dropped and [GutCheck] is put in front. *)
Fixpoint drop_color_suffix (s : string) : string :=
  match s with
  | String c s' => if String.eqb s "Color" then EmptyString
                   else String c (drop_color_suffix s')
  | EmptyString => EmptyString
  end.

Definition gutcheck_name (s : string) : string :=
  "GutCheck" +:+ drop_color_suffix s.

(** The assets directory and the paths of one colour. *)
Definition assets : path := ["GutCheck"; "Assets.xcassets"]%string.

Definition colorset (name : string) : path :=
  assets ++ [(name +:+ ".colorset")%string].

Definition contents (name : string) : path :=
  assets ++ [(name +:+ ".colorset")%string; "Contents.json"%string].

(** [p] lies strictly below the assets directory. *)
Definition below_assets (p : path) : Prop :=
  exists rest, rest <> [] /\ p = assets ++ rest.

Definition names (tbl : list (string * (string * string))) : list string :=
  map fst tbl.

(** The paths of the files written and of the directories created. *)
Definition written (evs : list event) : list path :=
  flat_map (fun ev => match ev with Write p _ => [p] | Mkdir _ => [] end) evs.

Definition created (evs : list event) : list path :=
  flat_map (fun ev => match ev with Mkdir p => [p] | Write _ _ => [] end) evs.

Definition is_dir (o : option node) : bool :=
  match o with
  | Some Dir => true
  | _ => false
  end.

Definition is_file (o : option node) : bool :=
  match o with
  | Some (File _) => true
  | _ => false
  end.

(** The assets directory is a directory, no colour set path is taken by
    a file and no [Contents.json] path is taken by a directory. *)
Definition ready (ns : list string) (w : world) : bool :=
  is_dir (fs w !! assets)
  && forallb (fun n => negb (is_file (fs w !! colorset n))
                       && negb (is_dir (fs w !! contents n))) ns.

(** A project root with an empty asset catalogue. *)
Definition fresh_world : world :=
  World (<[ assets := Dir ]> (<[ ["GutCheck"%string] := Dir ]> ∅)) [] [].

(** The same, where two colour set names are taken by regular files. *)
Definition blocked_world : world :=
  World (<[ colorset "PrimaryColor" := File "" ]>
           (<[ colorset "GutCheckPrimary" := File "" ]> (fs fresh_world))) [] [].

(** A directory without the asset catalogue. *)
Definition empty_world : world := World ∅ [] [].

(** The name makes one path component once [.colorset] is added. *)
Definition plain (name : string) : Prop :=
  Pathlib.parts (name +:+ ".colorset") = [(name +:+ ".colorset")%string].

Definition plainb (name : string) : bool :=
  bool_decide (Pathlib.parts (name +:+ ".colorset")
               = [(name +:+ ".colorset")%string]).

(** One round of either loop, up to the line it prints and the counter
    it keeps. *)
Definition iteration (line name light dark : string) : M unit :=
  print line ;;
  mkdir_exist_ok (colorset name) ;;
  j <- lift (G.create_color_json light dark) ;;
  write_json (contents name) j.

(** The events a run may add for the names [ns]. *)
Definition allowed (ns : list string) (ev : event) : Prop :=
  match ev with
  | Mkdir p => exists n, In n ns /\ p = colorset n
  | Write p _ => exists n, In n ns /\ p = contents n
  end.

(** [w'] differs from [w] by colour set directories created and
    [Contents.json] files written for the names [ns], and nothing else. *)
Definition confined (ns : list string) (w w' : world) : Prop :=
  (exists evs, trace w' = trace w ++ evs /\ Forall (allowed ns) evs)
  /\ (forall p,
        fs w' !! p = fs w !! p
        \/ (exists n, In n ns /\ p = colorset n
                      /\ fs w !! p = None /\ fs w' !! p = Some Dir)
        \/ (exists n, In n ns /\ p = contents n
                      /\ is_file (fs w' !! p) = true)).

(** An exception of the file system or of a conversion, not an exit. *)
Definition is_error (e : exn) : bool :=
  match e with
  | SystemExit _ => false
  | _ => true
  end.

Definition G_line (name : string) : string :=
  "   Creating " +:+ name +:+ "...".

Definition CC_line (name : string) : string := "   ✓ " +:+ name.

Definition G_success_message (count : Z) : string :=
  "✅ Successfully created " +:+ pretty count +:+ " color assets!".

Definition CC_success_message (count : Z) : string :=
  newline +:+ "✅ Created " +:+ pretty count +:+ " color assets!".

Definition add_out (w : world) (lines : list string) : world :=
  World (fs w) (out w ++ lines) (trace w).

(** Directories stay directories and files stay files: nothing is
    removed and no node changes its kind. *)
Definition kept (w w' : world) : Prop :=
  forall p,
    (fs w !! p = Some Dir -> fs w' !! p = Some Dir)
    /\ (is_file (fs w !! p) = true -> is_file (fs w' !! p) = true).

(** ASCII lower and upper case of a character, and of a string. *)
Definition ascii_lower (c : ascii) : ascii :=
  let n := PyStr.code c in
  if (65 <=? n) && (n <=? 90) then ascii_of_N (Z.to_N (n + 32)) else c.

Definition ascii_upper (c : ascii) : ascii :=
  let n := PyStr.code c in
  if (97 <=? n) && (n <=? 122) then ascii_of_N (Z.to_N (n - 32)) else c.

Fixpoint map_chars (f : ascii -> ascii) (s : string) : string :=
  match s with
  | String c s' => String (f c) (map_chars f s')
  | EmptyString => EmptyString
  end.

(** Printable ASCII characters and line feeds only. *)
Definition printable (c : ascii) : bool :=
  let n := PyStr.code c in
  (n =? 10) || ((32 <=? n) && (n <=? 126)).

Fixpoint plain_text (s : string) : bool :=
  match s with
  | String c s' => printable c && plain_text s'
  | EmptyString => true
  end.

(** The byte read back from the thousandths of a component. *)
Definition byte_of_thousandths (k : Z) : Z :=
  PyFloat.round_half_even (255 * k) 1000.

(** What stands in the way of a colour: a regular file where its
    colour set directory goes, or a directory where its [Contents.json]
    goes. *)
Definition obstacle (w : world) (n : string) : option exn :=
  if is_file (fs w !! colorset n) then Some FileExistsError
  else if is_dir (fs w !! contents n) then Some IsADirectoryError
  else None.

(** The first obstacle in table order, and the names before it. *)
Fixpoint first_obstacle (ns : list string) (w : world) : option exn :=
  match ns with
  | [] => None
  | n :: rest =>
      match obstacle w n with
      | Some e => Some e
      | None => first_obstacle rest w
      end
  end.

Fixpoint before_obstacle (ns : list string) (w : world) : list string :=
  match ns with
  | [] => []
  | n :: rest =>
      match obstacle w n with
      | Some _ => []
      | None => n :: before_obstacle rest w
      end
  end.

(** How a run over the names [ns] ends, read off the file system it
    starts from. *)
Definition expected_outcome (ns : list string) (w : world) : outcome :=
  match fs w !! assets with
  | None => Exited 1
  | Some (File _) => Crashed NotADirectoryError
  | Some Dir =>
      match first_obstacle ns w with
      | Some e => Crashed e
      | None => Exited 0
      end
  end.

(** The colours a run gets through. *)
Definition expected_progress (ns : list string) (w : world) : list string :=
  match fs w !! assets with
  | Some Dir => before_obstacle ns w
  | _ => []
  end.

(** Every file written between [w] and [w'] holds plain text. *)
Definition plain_event (ev : event) : Prop :=
  match ev with
  | Write _ text => plain_text text = true
  | Mkdir _ => True
  end.

Definition writes_plain (w w' : world) : Prop :=
  (exists evs, trace w' = trace w ++ evs /\ Forall plain_event evs)
  /\ (forall p text,
        fs w' !! p = Some (File text) ->
        fs w !! p = Some (File text) \/ plain_text text = true).

(** The lines a run prints, as they stand in the two scripts. *)
Definition G_banner : list string :=
  [ "🎨 GutCheck Color Assets Generator (Python)"; PyStr.replicate 50 "="; "" ]%string.

Definition G_missing_output : list string :=
  G_banner ++
  [ "❌ Error: GutCheck/Assets.xcassets not found!";
    "Please run this script from your project root directory." ]%string.

Definition G_listing_line (entry : string * (string * string)) : string :=
  "   • " +:+ fst entry +:+ ": " +:+ fst (snd entry) +:+ " / " +:+ snd (snd entry).

Definition G_success_output : list string :=
  G_banner
  ++ [ "✅ Found Assets.xcassets at: GutCheck/Assets.xcassets"; "" ]%string
  ++ map G_line (names G.COLORS)
  ++ [ ""; PyStr.replicate 50 "="; "✅ Successfully created 17 color assets!"; "";
       "📋 Next Steps:";
       "1. Open your Xcode project";
       "2. The colors should now appear in Assets.xcassets";
       "3. If Xcode is already open:";
       "   - Close and reopen the project, OR";
       "   - Clean build folder (Cmd+Shift+K)";
       "4. Build and run your app";
       "";
       "🎨 Colors created with Light/Dark mode support:" ]%string
  ++ map G_listing_line G.COLORS
  ++ [ ""%string ].

Definition CC_missing_output : list string :=
  [ "❌ Error: GutCheck/Assets.xcassets not found!" ]%string.

Definition CC_success_output : list string :=
  [ "🎨 Creating GutCheck color assets..."%string ]
  ++ map CC_line (names CC.COLORS)
  ++ [ newline +:+ "✅ Created 17 color assets!";
       newline +:+ "📋 Next steps:";
       "1. Close Xcode if it's open";
       "2. Reopen Xcode";
       "3. Clean Build (Cmd+Shift+K)";
       "4. Build & Run" ]%string.

(* ===================================================================== *)
(** ** Exhaustive checks over characters and bytes *)
(* ===================================================================== *)

Lemma all_ascii_complete (a : ascii) : In a all_ascii.
Proof.
  rewrite <- (ascii_nat_embedding a). unfold all_ascii.
  apply in_map, in_seq. pose proof (nat_ascii_bounded a). lia.
Qed.

Lemma forall_ascii (P : ascii -> bool) :
  forallb P all_ascii = true -> forall a, P a = true.
Proof.
  intros H a. rewrite forallb_forall in H. apply H, all_ascii_complete.
Qed.

Lemma forall_ascii2 (P : ascii -> ascii -> bool) :
  forallb (fun a => forallb (P a) all_ascii) all_ascii = true ->
  forall a b, P a b = true.
Proof.
  intros H a b. apply forall_ascii. revert a. apply forall_ascii. exact H.
Qed.

Lemma forall_byte (P : Z -> bool) :
  forallb P bytes = true -> forall n, 0 <= n < 256 -> P n = true.
Proof.
  intros H n Hn. rewrite forallb_forall in H. apply H.
  unfold bytes. rewrite <- (Z2Nat.id n) by lia.
  apply in_map, in_seq. lia.
Qed.

(* ===================================================================== *)
(** ** [int(s, 16)] on slices of at most two characters *)
(* ===================================================================== *)

Lemma int16_one (a : ascii) :
  PyStr.int16 (String a EmptyString) = literal_value (String a EmptyString).
Proof.
  revert a.
  enough (H : forall a, bool_decide (PyStr.int16 (String a EmptyString)
                                     = literal_value (String a EmptyString)) = true).
  { intros a. exact (bool_decide_eq_true_1 _ (H a)). }
  apply forall_ascii. vm_compute. reflexivity.
Qed.

Lemma int16_two (a b : ascii) :
  PyStr.int16 (String a (String b EmptyString))
  = literal_value (String a (String b EmptyString)).
Proof.
  revert a b.
  enough (H : forall a b,
             bool_decide (PyStr.int16 (String a (String b EmptyString))
                          = literal_value (String a (String b EmptyString))) = true).
  { intros a b. exact (bool_decide_eq_true_1 _ (H a b)). }
  apply forall_ascii2. vm_compute. reflexivity.
Qed.

Lemma int16_short (s : string) :
  (String.length s <= 2)%nat -> PyStr.int16 s = literal_value s.
Proof.
  destruct s as [|a [|b [|c s]]]; intros H.
  - reflexivity.
  - apply int16_one.
  - apply int16_two.
  - simpl in H. lia.
Qed.

(* ===================================================================== *)
(** ** [hex_to_rgb] *)
(* ===================================================================== *)

Lemma take_length (n : nat) (s : string) :
  (String.length (PyStr.take n s) <= n)%nat.
Proof.
  revert s. induction n as [|n IH]; intros [|a s]; simpl; try lia.
  specialize (IH s). lia.
Qed.

Lemma slice_length (i j : nat) (s : string) :
  (String.length (PyStr.slice i j s) <= j - i)%nat.
Proof. apply take_length. Qed.

Lemma py_int16_slice (i : nat) (h : string) :
  py_int16 (PyStr.slice i (i + 2) h)
  = match literal_value (PyStr.slice i (i + 2) h) with
    | Some n => Ok n
    | None => Raise ValueError
    end.
Proof.
  unfold py_int16. rewrite int16_short; [reflexivity|].
  pose proof (slice_length i (i + 2) h). lia.
Qed.

(** Both versions read the three slices in order and divide by 255. *)
Lemma G_hex_to_rgb_spec (s : string) :
  G.hex_to_rgb s
  = match slice_values (PyStr.lstrip "#" s) with
    | Some (r, g, b) => Ok (PyFloat.div255 r, PyFloat.div255 g, PyFloat.div255 b)
    | None => Raise ValueError
    end.
Proof.
  unfold G.hex_to_rgb, slice_values.
  rewrite (py_int16_slice 0), (py_int16_slice 2), (py_int16_slice 4). simpl.
  destruct (literal_value (PyStr.slice 0 2 _)); simpl; [|reflexivity].
  destruct (literal_value (PyStr.slice 2 4 _)); simpl; [|reflexivity].
  destruct (literal_value (PyStr.slice 4 6 _)); reflexivity.
Qed.

Lemma CC_hex_to_rgb_spec (s : string) :
  CC.hex_to_rgb s
  = match slice_values (PyStr.lstrip "#" s) with
    | Some (r, g, b) => Ok [PyFloat.div255 r; PyFloat.div255 g; PyFloat.div255 b]
    | None => Raise ValueError
    end.
Proof.
  unfold CC.hex_to_rgb, slice_values. cbn [CC.tuple_of].
  rewrite (py_int16_slice 0), (py_int16_slice 2), (py_int16_slice 4). simpl.
  destruct (literal_value (PyStr.slice 0 2 _)); simpl; [|reflexivity].
  destruct (literal_value (PyStr.slice 2 4 _)); simpl; [|reflexivity].
  destruct (literal_value (PyStr.slice 4 6 _)); reflexivity.
Qed.

(** The tuple of [create_colors.py] unpacks to the triple of
    [generate_color_assets.py]. *)
Lemma hex_to_rgb_agree (s : string) :
  res_bind (CC.hex_to_rgb s) CC.unpack3 = G.hex_to_rgb s.
Proof.
  rewrite CC_hex_to_rgb_spec, G_hex_to_rgb_spec.
  destruct (slice_values _) as [[[r g] b]|]; reflexivity.
Qed.

Lemma create_color_json_data_agree (light dark : string) :
  G.create_color_json light dark = CC.data light dark.
Proof.
  unfold G.create_color_json, CC.data. rewrite !hex_to_rgb_agree.
  destruct (G.hex_to_rgb light) as [[[lr lg] lb]|]; simpl; [|reflexivity].
  destruct (G.hex_to_rgb dark) as [[[dr dg] db]|]; reflexivity.
Qed.

Lemma lstrip_hashes (n : nat) (s : string) :
  PyStr.lstrip "#" (PyStr.replicate n "#" +:+ s) = PyStr.lstrip "#" s.
Proof. induction n as [|n IH]; [reflexivity|]. simpl. exact IH. Qed.

Lemma hex_digit_not_hash (c : ascii) :
  PyStr.is_hex_digit c = true -> Ascii.eqb c "#" = false.
Proof.
  revert c.
  enough (H : forall c, implb (PyStr.is_hex_digit c) (negb (Ascii.eqb c "#")) = true).
  { intros c Hc. specialize (H c). rewrite Hc in H. simpl in H.
    destruct (Ascii.eqb c "#"); [discriminate|reflexivity]. }
  apply forall_ascii. vm_compute. reflexivity.
Qed.

Lemma pair_value_byte (a b : ascii) :
  PyStr.is_hex_digit a = true -> PyStr.is_hex_digit b = true ->
  0 <= pair_value a b < 256.
Proof.
  revert a b.
  enough (H : forall a b,
             implb (PyStr.is_hex_digit a && PyStr.is_hex_digit b)
                   ((0 <=? pair_value a b) && (pair_value a b <? 256)) = true).
  { intros a b Ha Hb. specialize (H a b). rewrite Ha, Hb in H. simpl in H.
    apply andb_prop in H as [H1 H2]. lia. }
  apply forall_ascii2. vm_compute. reflexivity.
Qed.

(** A string [#RRGGBB] is its six digits once stripped. *)
Lemma hex_bytes_inv (s : string) (r g b : Z) :
  hex_bytes s = Some (r, g, b) ->
  exists c1 c2 c3 c4 c5 c6,
    s = String "#" (String c1 (String c2 (String c3 (String c4 (String c5
          (String c6 EmptyString))))))
    /\ Forall (fun c => PyStr.is_hex_digit c = true) [c1; c2; c3; c4; c5; c6]
    /\ r = pair_value c1 c2 /\ g = pair_value c3 c4 /\ b = pair_value c5 c6.
Proof.
  intros H.
  destruct s as [|h [|c1 [|c2 [|c3 [|c4 [|c5 [|c6 [|c7 s]]]]]]]];
    try discriminate H;
    try (simpl in H; destruct h as [[] [] [] [] [] [] [] []]; discriminate H).
  unfold hex_bytes in H.
  destruct h as [[] [] [] [] [] [] [] []]; try discriminate H.
  destruct (forallb PyStr.is_hex_digit [c1; c2; c3; c4; c5; c6]) eqn:E;
    [|discriminate H].
  injection H as <- <- <-.
  exists c1, c2, c3, c4, c5, c6. split; [reflexivity|]. split; [|auto].
  rewrite forallb_forall in E. apply List.Forall_forall. exact E.
Qed.

Lemma hex_bytes_bounds (s : string) (r g b : Z) :
  hex_bytes s = Some (r, g, b) ->
  0 <= r < 256 /\ 0 <= g < 256 /\ 0 <= b < 256.
Proof.
  intros H. apply hex_bytes_inv in H as (c1 & c2 & c3 & c4 & c5 & c6 & _ & Hd & -> & -> & ->).
  repeat match goal with
         | H : Forall _ (_ :: _) |- _ => inversion H; subst; clear H
         end.
  auto using pair_value_byte.
Qed.

Lemma hex_bytes_slices (s : string) (r g b : Z) :
  hex_bytes s = Some (r, g, b) ->
  slice_values (PyStr.lstrip "#" s) = Some (r, g, b).
Proof.
  intros H. apply hex_bytes_inv in H as (c1 & c2 & c3 & c4 & c5 & c6 & -> & Hd & -> & -> & ->).
  repeat match goal with
         | H : Forall _ (_ :: _) |- _ => inversion H; subst; clear H
         end.
  cbn [PyStr.lstrip]. change (Ascii.eqb "#" "#") with true. cbv iota.
  cbn [PyStr.lstrip]. rewrite (hex_digit_not_hash c1) by assumption.
  unfold slice_values, PyStr.slice. cbn [PyStr.drop PyStr.take Nat.sub literal_value].
  repeat match goal with
         | H : PyStr.is_hex_digit _ = true |- _ => rewrite H; clear H
         end.
  reflexivity.
Qed.

Lemma hex_color_rgb (s : string) (r g b : Z) :
  hex_bytes s = Some (r, g, b) ->
  G.hex_to_rgb s = Ok (PyFloat.div255 r, PyFloat.div255 g, PyFloat.div255 b)
  /\ CC.hex_to_rgb s = Ok [PyFloat.div255 r; PyFloat.div255 g; PyFloat.div255 b].
Proof.
  intros H. rewrite G_hex_to_rgb_spec, CC_hex_to_rgb_spec.
  rewrite (hex_bytes_slices _ _ _ _ H). split; reflexivity.
Qed.

Lemma div255_unit (n : Z) :
  0 <= n < 256 ->
  in_unit_interval (PyFloat.div255 n) = true
  /\ close_to_ratio n (PyFloat.div255 n) = true.
Proof.
  intros Hn. apply andb_prop.
  revert n Hn.
  apply (forall_byte (fun n => in_unit_interval (PyFloat.div255 n)
                               && close_to_ratio n (PyFloat.div255 n))).
  vm_compute. reflexivity.
Qed.

Lemma component_rendered (n : Z) :
  0 <= n < 256 -> rendered_3dp n (component n) = true.
Proof.
  revert n. apply forall_byte. vm_compute. reflexivity.
Qed.

(** C10: [hex_to_rgb("#" + s) = hex_to_rgb(s)], and the same for any
    number of leading ['#'] characters, in both scripts; the results are
    compared as outcomes, so an input that raises does so with or
    without the prefix. *)
Theorem hex_to_rgb_leading_hashes (n : nat) (s : string) :
  G.hex_to_rgb ("#" +:+ s) = G.hex_to_rgb s
  /\ CC.hex_to_rgb ("#" +:+ s) = CC.hex_to_rgb s
  /\ G.hex_to_rgb (PyStr.replicate n "#" +:+ s) = G.hex_to_rgb s
  /\ CC.hex_to_rgb (PyStr.replicate n "#" +:+ s) = CC.hex_to_rgb s.
Proof.
  split; [|split; [|split]].
  - reflexivity.
  - reflexivity.
  - unfold G.hex_to_rgb. rewrite lstrip_hashes. reflexivity.
  - unfold CC.hex_to_rgb. rewrite lstrip_hashes. reflexivity.
Qed.

(** C2: on a string [#RRGGBB] of six hexadecimal digits, [hex_to_rgb]
    returns [(R/255, G/255, B/255)] for the base-16 values [R], [G], [B]
    of the three digit pairs; every component lies in [0, 1] (and is
    within [2^-54] of the exact quotient). *)
Theorem hex_to_rgb_of_hex_color (s : string) (r g b : Z) :
  hex_bytes s = Some (r, g, b) ->
  G.hex_to_rgb s = Ok (PyFloat.div255 r, PyFloat.div255 g, PyFloat.div255 b)
  /\ CC.hex_to_rgb s = Ok [PyFloat.div255 r; PyFloat.div255 g; PyFloat.div255 b]
  /\ Forall (fun n => in_unit_interval (PyFloat.div255 n) = true
                      /\ close_to_ratio n (PyFloat.div255 n) = true) [r; g; b].
Proof.
  intros H. destruct (hex_color_rgb _ _ _ _ H) as [HG HC].
  destruct (hex_bytes_bounds _ _ _ _ H) as (Hr & Hg & Hb).
  split; [exact HG|]. split; [exact HC|].
  repeat (constructor; [apply div255_unit; assumption|]). constructor.
Qed.

Lemma hex_to_rgb_of_hex_color_witness :
  hex_bytes "#0891B2" = Some (8, 145, 178)
  /\ G.hex_to_rgb "#0891B2"
     = Ok (PyFloat.div255 8, PyFloat.div255 145, PyFloat.div255 178).
Proof.
  split; [reflexivity|].
  exact (proj1 (hex_to_rgb_of_hex_color "#0891B2" 8 145 178 eq_refl)).
Defined.



Lemma create_color_json_ok (light dark : string) :
  is_hex_color light = true -> is_hex_color dark = true ->
  exists j, G.create_color_json light dark = Ok j.
Proof.
  unfold is_hex_color. intros Hl Hd.
  destruct (hex_bytes light) as [[[lr lg] lb]|] eqn:El; [|discriminate].
  destruct (hex_bytes dark) as [[[dr dg] db]|] eqn:Ed; [|discriminate].
  unfold G.create_color_json.
  rewrite (proj1 (hex_color_rgb _ _ _ _ El)), (proj1 (hex_color_rgb _ _ _ _ Ed)).
  eexists. reflexivity.
Qed.

(** C5: for valid [#RRGGBB] strings the dictionary returned by
    [create_color_json] is the dictionary bound to [data] in the loop of
    [create_colors.py]. *)
Theorem create_color_json_equals_data (light dark : string) :
  is_hex_color light = true -> is_hex_color dark = true ->
  exists j, G.create_color_json light dark = Ok j /\ CC.data light dark = Ok j.
Proof.
  unfold is_hex_color. intros Hl Hd.
  destruct (hex_bytes light) as [[[lr lg] lb]|] eqn:El; [|discriminate].
  destruct (hex_bytes dark) as [[[dr dg] db]|] eqn:Ed; [|discriminate].
  rewrite <- create_color_json_data_agree.
  unfold G.create_color_json.
  rewrite (proj1 (hex_color_rgb _ _ _ _ El)), (proj1 (hex_color_rgb _ _ _ _ Ed)).
  eexists. split; reflexivity.
Qed.

Lemma create_color_json_equals_data_witness :
  exists j, G.create_color_json "#0891B2" "#06B6D4" = Ok j
            /\ CC.data "#0891B2" "#06B6D4" = Ok j.
Proof.
  exact (create_color_json_equals_data "#0891B2" "#06B6D4" eq_refl eq_refl).
Defined.

(* ===================================================================== *)
(** ** The generated dictionary *)
(* ===================================================================== *)

Lemma hex_color_json (light dark : string) (lr lg lb dr dg db : Z) :
  hex_bytes light = Some (lr, lg, lb) ->
  hex_bytes dark = Some (dr, dg, db) ->
  G.create_color_json light dark
  = Ok (schema (component lr) (component lg) (component lb)
               (component dr) (component dg) (component db)).
Proof.
  intros Hl Hd. unfold G.create_color_json.
  rewrite (proj1 (hex_color_rgb _ _ _ _ Hl)), (proj1 (hex_color_rgb _ _ _ _ Hd)).
  reflexivity.
Qed.

Lemma COLORS_are_hex_colors (name light dark : string) :
  In (name, (light, dark)) G.COLORS \/ In (name, (light, dark)) CC.COLORS ->
  is_hex_color light = true /\ is_hex_color dark = true.
Proof.
  assert (H : forallb (fun e => is_hex_color (fst (snd e)) && is_hex_color (snd (snd e)))
                (G.COLORS ++ CC.COLORS) = true) by (vm_compute; reflexivity).
  rewrite forallb_forall in H. intros Hin.
  apply in_or_app, H in Hin. apply andb_prop in Hin. exact Hin.
Qed.

(** C1: for every entry of either table the structure is the fixed
    schema: two srgb colours of universal idiom, the first without
    appearances and with the light components, the second with the dark
    luminosity appearance and the dark components, and the info object;
    every component is a string [d.ddd], the 0-1 value of its byte
    rounded to three decimal places. *)
Theorem contents_json_schema (name light dark : string) :
  In (name, (light, dark)) G.COLORS \/ In (name, (light, dark)) CC.COLORS ->
  exists lr lg lb dr dg db : Z,
    hex_bytes light = Some (lr, lg, lb)
    /\ hex_bytes dark = Some (dr, dg, db)
    /\ G.create_color_json light dark
       = Ok (schema (component lr) (component lg) (component lb)
                    (component dr) (component dg) (component db))
    /\ CC.data light dark
       = Ok (schema (component lr) (component lg) (component lb)
                    (component dr) (component dg) (component db))
    /\ Forall (fun n => rendered_3dp n (component n) = true)
              [lr; lg; lb; dr; dg; db]
    /\ thousandths_of "1.000" = Some 1000.
Proof.
  intros Hin. apply COLORS_are_hex_colors in Hin as [Hl Hd].
  unfold is_hex_color in Hl, Hd.
  destruct (hex_bytes light) as [[[lr lg] lb]|] eqn:El; [|discriminate].
  destruct (hex_bytes dark) as [[[dr dg] db]|] eqn:Ed; [|discriminate].
  exists lr, lg, lb, dr, dg, db.
  pose proof (hex_color_json _ _ _ _ _ _ _ _ El Ed) as HG.
  destruct (hex_bytes_bounds _ _ _ _ El) as (? & ? & ?).
  destruct (hex_bytes_bounds _ _ _ _ Ed) as (? & ? & ?).
  split; [reflexivity|]. split; [reflexivity|]. split; [exact HG|].
  split; [rewrite <- create_color_json_data_agree; exact HG|].
  split; [|reflexivity].
  repeat (constructor; [apply component_rendered; assumption|]). constructor.
Qed.

Lemma contents_json_schema_witness :
  exists lr lg lb dr dg db : Z,
    hex_bytes "#0891B2" = Some (lr, lg, lb)
    /\ hex_bytes "#06B6D4" = Some (dr, dg, db)
    /\ G.create_color_json "#0891B2" "#06B6D4"
       = Ok (schema (component lr) (component lg) (component lb)
                    (component dr) (component dg) (component db))
    /\ CC.data "#0891B2" "#06B6D4"
       = Ok (schema (component lr) (component lg) (component lb)
                    (component dr) (component dg) (component db))
    /\ Forall (fun n => rendered_3dp n (component n) = true)
              [lr; lg; lb; dr; dg; db]
    /\ thousandths_of "1.000" = Some 1000.
Proof.
  apply (contents_json_schema "PrimaryColor" "#0891B2" "#06B6D4").
  left. simpl. left. reflexivity.
Defined.

(** C8: whatever the two hex strings, a generated dictionary holds the
    string ["1.000"] under ["alpha"] in its light and in its dark entry,
    and holds no other alpha value. *)
Theorem alpha_is_constant (light dark : string) (j : json) :
  G.create_color_json light dark = Ok j \/ CC.data light dark = Ok j ->
  component_at 0 "alpha" j = Some (JStr "1.000")
  /\ component_at 1 "alpha" j = Some (JStr "1.000")
  /\ Json.values_of "alpha" j = [JStr "1.000"; JStr "1.000"].
Proof.
  rewrite <- create_color_json_data_agree. intros H.
  assert (Hj : G.create_color_json light dark = Ok j) by (destruct H; assumption).
  clear H. unfold G.create_color_json in Hj.
  destruct (G.hex_to_rgb light) as [[[lr lg] lb]|]; [|discriminate Hj].
  destruct (G.hex_to_rgb dark) as [[[dr dg] db]|]; [|discriminate Hj].
  simpl in Hj. injection Hj as <-.
  split; [reflexivity|]. split; reflexivity.
Qed.

Lemma alpha_is_constant_witness :
  exists j, G.create_color_json "#FFFFFF" "#0F172A" = Ok j
            /\ Json.values_of "alpha" j = [JStr "1.000"; JStr "1.000"].
Proof.
  destruct (G.create_color_json "#FFFFFF" "#0F172A") as [j|e] eqn:E.
  - exists j. split; [reflexivity|].
    exact (proj2 (proj2 (alpha_is_constant "#FFFFFF" "#0F172A" j (or_introl E)))).
  - exfalso. vm_compute in E. discriminate E.
Defined.

(** C6: the two tables have 17 entries each and hold the same
    (light, dark) pair at every position; the names at each position
    differ by the naming convention only. *)
Theorem COLORS_tables_agree :
  length G.COLORS = 17%nat
  /\ length CC.COLORS = 17%nat
  /\ (forall i, snd <$> nth_error G.COLORS i = snd <$> nth_error CC.COLORS i)
  /\ (forall i, fst <$> nth_error CC.COLORS i
                = gutcheck_name <$> (fst <$> nth_error G.COLORS i))
  /\ NoDup (names G.COLORS) /\ NoDup (names CC.COLORS).
Proof.
  split; [reflexivity|]. split; [reflexivity|].
  split; [|split].
  - intros i. do 17 (destruct i as [|i]; [reflexivity|]). destruct i; reflexivity.
  - intros i. do 17 (destruct i as [|i]; [reflexivity|]). destruct i; reflexivity.
  - split; apply (bool_decide_eq_true_1 _); vm_compute; reflexivity.
Qed.

(* ===================================================================== *)
(** ** Paths of the asset catalogue *)
(* ===================================================================== *)

Lemma G_assets_path : G.assets_path = assets.
Proof. reflexivity. Qed.

Lemma CC_assets_path : CC.assets_path = assets.
Proof. reflexivity. Qed.

Lemma parts_contents : Pathlib.parts "Contents.json" = ["Contents.json"%string].
Proof. reflexivity. Qed.

Lemma node_at_assets m : Pathlib.node_at m assets = m !! assets.
Proof. reflexivity. Qed.

Lemma node_at_colorset m n : Pathlib.node_at m (colorset n) = m !! colorset n.
Proof. reflexivity. Qed.

Lemma node_at_contents m n : Pathlib.node_at m (contents n) = m !! contents n.
Proof. reflexivity. Qed.

Lemma parent_colorset n : Pathlib.parent (colorset n) = assets.
Proof. reflexivity. Qed.

Lemma parent_contents n : Pathlib.parent (contents n) = colorset n.
Proof. reflexivity. Qed.

Lemma colorset_joinpath n : plain n -> assets // (n +:+ ".colorset") = colorset n.
Proof. unfold plain, Pathlib.joinpath. intros ->. reflexivity. Qed.

Lemma contents_joinpath n : colorset n // "Contents.json" = contents n.
Proof. reflexivity. Qed.

Lemma colorset_ne_contents n n' : colorset n <> contents n'.
Proof. intros H. apply (f_equal (@length _)) in H. discriminate H. Qed.

Lemma assets_ne_colorset n : assets <> colorset n.
Proof. intros H. apply (f_equal (@length _)) in H. discriminate H. Qed.

Lemma assets_ne_contents n : assets <> contents n.
Proof. intros H. apply (f_equal (@length _)) in H. discriminate H. Qed.


(* ===================================================================== *)
(** ** Runs stay inside the asset catalogue *)
(* ===================================================================== *)

Lemma confined_refl ns w : confined ns w w.
Proof.
  split.
  - exists []. rewrite app_nil_r. split; [reflexivity|constructor].
  - intros p. left. reflexivity.
Qed.

Lemma confined_trans ns w1 w2 w3 :
  confined ns w1 w2 -> confined ns w2 w3 -> confined ns w1 w3.
Proof.
  intros [(e1 & Ht1 & Ha1) Hf1] [(e2 & Ht2 & Ha2) Hf2]. split.
  - exists (e1 ++ e2). rewrite Ht2, Ht1, app_assoc. split; [reflexivity|].
    apply Forall_app. split; assumption.
  - intros p.
    destruct (Hf2 p) as [E2|[(n & Hn & -> & Hnone & Hdir)|(n & Hn & -> & Hfile)]].
    + rewrite E2. destruct (Hf1 p) as [E1|[(n & Hn & -> & Hnone & Hdir)|(n & Hn & -> & Hfile)]].
      * left. exact E1.
      * right. left. exists n. auto.
      * right. right. exists n. auto.
    + destruct (Hf1 (colorset n)) as [E1|[(n' & Hn' & Heq & Hnone' & Hdir')|(n' & Hn' & Heq & Hfile')]].
      * right. left. exists n. rewrite <- E1. auto.
      * rewrite Hdir' in Hnone. discriminate.
      * rewrite Hnone in Hfile'. discriminate.
    + right. right. exists n. auto.
Qed.

Lemma confined_mono ns ns' w w' :
  incl ns ns' -> confined ns w w' -> confined ns' w w'.
Proof.
  intros Hi [(evs & Ht & Ha) Hf]. split.
  - exists evs. split; [exact Ht|].
    eapply List.Forall_impl; [|exact Ha].
    intros [p|p t]; simpl; intros (n & Hn & ->); exists n; auto.
  - intros p. destruct (Hf p) as [E|[(n & Hn & H)|(n & Hn & H)]]; [left; exact E| |].
    + right. left. exists n. auto.
    + right. right. exists n. auto.
Qed.

Lemma confined_add_out ns w lines : confined ns w (add_out w lines).
Proof.
  split.
  - exists []. simpl. rewrite app_nil_r. split; [reflexivity|constructor].
  - intros p. left. reflexivity.
Qed.


Lemma confined_mkdir n w o :
  fs w !! colorset n = None ->
  confined [n] w (World (<[colorset n := Dir]> (fs w)) o (trace w ++ [Mkdir (colorset n)])).
Proof.
  intros Hnone. split.
  - exists [Mkdir (colorset n)]. split; [reflexivity|].
    constructor; [|constructor]. exists n. split; [left|]; reflexivity.
  - intros p. cbn [fs]. destruct (decide (colorset n = p)) as [<-|Hne].
    + right. left. exists n. rewrite lookup_insert_eq.
      split; [left; reflexivity|]. auto.
    + left. apply lookup_insert_ne. exact Hne.
Qed.

Lemma confined_write n w o text :
  confined [n] w (World (<[contents n := File text]> (fs w)) o
                    (trace w ++ [Write (contents n) text])).
Proof.
  split.
  - exists [Write (contents n) text]. split; [reflexivity|].
    constructor; [|constructor]. exists n. split; [left|]; reflexivity.
  - intros p. cbn [fs]. destruct (decide (contents n = p)) as [<-|Hne].
    + right. right. exists n. rewrite lookup_insert_eq.
      split; [left; reflexivity|]. auto.
    + left. apply lookup_insert_ne. exact Hne.
Qed.

(** *** Each operation keeps the run confined *)

Lemma ret_confined {A : Type} ns (a : A) w : confined ns w (snd (ret a w)).
Proof. apply confined_refl. Qed.

Lemma raise_confined {A : Type} ns e w : confined ns w (snd (@raise A e w)).
Proof. apply confined_refl. Qed.

Lemma lift_confined {A : Type} ns (r : res A) w : confined ns w (snd (lift r w)).
Proof. apply confined_refl. Qed.

Lemma print_confined ns s w : confined ns w (snd (print s w)).
Proof. apply (confined_add_out ns w [s]). Qed.

Lemma path_exists_confined ns p w : confined ns w (snd (path_exists p w)).
Proof. apply confined_refl. Qed.

Lemma bind_confined {A B : Type} ns (m : M A) (k : A -> M B) :
  (forall w, confined ns w (snd (m w))) ->
  (forall a w, confined ns w (snd (k a w))) ->
  forall w, confined ns w (snd (bind m k w)).
Proof.
  intros Hm Hk w. unfold bind. specialize (Hm w).
  destruct (m w) as [[a|e] w1]; [|exact Hm].
  eapply confined_trans; [exact Hm|apply Hk].
Qed.

Lemma for_each_confined {A S : Type} ns (items : list A) (body : S -> A -> M S) :
  (forall s x, In x items -> forall w, confined ns w (snd (body s x w))) ->
  forall s w, confined ns w (snd (for_each items body s w)).
Proof.
  induction items as [|x items IH]; intros Hb s w.
  - apply confined_refl.
  - cbn [for_each]. apply bind_confined.
    + apply Hb. left. reflexivity.
    + intros s' w'. apply IH. intros s'' y Hy. apply Hb. right. exact Hy.
Qed.

Lemma mkdir_confined ns n :
  In n ns -> forall w, confined ns w (snd (mkdir_exist_ok (colorset n) w)).
Proof.
  intros Hn w. apply (confined_mono [n]).
  { intros x [<-|[]]. exact Hn. }
  unfold mkdir_exist_ok. rewrite parent_colorset, node_at_assets, node_at_colorset.
  destruct (fs w !! assets) as [[|?]|]; try apply confined_refl.
  destruct (fs w !! colorset n) as [[|?]|] eqn:Ec; try apply confined_refl.
  apply confined_mkdir. exact Ec.
Qed.

Lemma write_json_confined ns n j :
  In n ns -> forall w, confined ns w (snd (write_json (contents n) j w)).
Proof.
  intros Hn w. apply (confined_mono [n]).
  { intros x [<-|[]]. exact Hn. }
  unfold write_json. rewrite parent_contents, node_at_colorset, node_at_contents.
  destruct (fs w !! colorset n) as [[|?]|]; try apply confined_refl.
  destruct (fs w !! contents n) as [[|?]|]; try apply confined_refl;
    apply confined_write.
Qed.

Lemma run_script_world script w : snd (run_script script w) = snd (script w).
Proof.
  unfold run_script. destruct (script w) as [[?|[]] ?]; reflexivity.
Qed.

Lemma names_plain name light dark :
  In (name, (light, dark)) G.COLORS \/ In (name, (light, dark)) CC.COLORS ->
  plain name.
Proof.
  assert (H : forallb (fun e => plainb (fst e)) (G.COLORS ++ CC.COLORS) = true)
    by (vm_compute; reflexivity).
  rewrite forallb_forall in H. intros Hin.
  apply in_or_app, H in Hin. apply (bool_decide_eq_true_1 _ Hin).
Qed.

Lemma in_names (tbl : list (string * (string * string))) name light dark :
  In (name, (light, dark)) tbl -> In name (names tbl).
Proof. intros H. apply (in_map fst) in H. exact H. Qed.

Lemma G_create_one_confined cnt entry :
  In entry G.COLORS ->
  forall w, confined (names G.COLORS) w (snd (G.create_one cnt entry w)).
Proof.
  destruct entry as [name [light dark]]. intros Hin.
  pose proof (in_names _ _ _ _ Hin) as Hn.
  pose proof (names_plain _ _ _ (or_introl Hin)) as Hp.
  unfold G.create_one. rewrite G_assets_path, (colorset_joinpath _ Hp), contents_joinpath.
  apply bind_confined; [intros w; apply print_confined|intros _].
  apply bind_confined; [apply mkdir_confined, Hn|intros _].
  apply bind_confined; [intros w; apply lift_confined|intros j].
  apply bind_confined; [apply write_json_confined, Hn|intros _].
  intros w. apply ret_confined.
Qed.

Lemma CC_create_one_confined u entry :
  In entry CC.COLORS ->
  forall w, confined (names CC.COLORS) w (snd (CC.create_one u entry w)).
Proof.
  destruct entry as [name [light dark]]. intros Hin.
  pose proof (in_names _ _ _ _ Hin) as Hn.
  pose proof (names_plain _ _ _ (or_intror Hin)) as Hp.
  unfold CC.create_one. rewrite CC_assets_path, (colorset_joinpath _ Hp), contents_joinpath.
  apply bind_confined; [intros w; apply print_confined|intros _].
  apply bind_confined; [apply mkdir_confined, Hn|intros _].
  apply bind_confined; [intros w; apply lift_confined|intros j].
  apply write_json_confined, Hn.
Qed.

Ltac confined_prints :=
  repeat lazymatch goal with
         | |- forall w, confined _ w (snd (bind (print _) _ w)) =>
             apply bind_confined; [intros ?; apply print_confined|intros _]
         end.

Lemma G_main_confined w : confined (names G.COLORS) w (snd (G.main w)).
Proof.
  revert w. unfold G.main. confined_prints.
  apply bind_confined; [intros w; apply path_exists_confined|intros found].
  destruct found; cbn [negb].
  - confined_prints.
    apply bind_confined;
      [apply for_each_confined; intros; apply G_create_one_confined; assumption
      |intros cnt].
    confined_prints.
    apply bind_confined.
    { apply for_each_confined. intros s [name [light dark]] _ w. apply print_confined. }
    intros _. confined_prints. intros w. apply ret_confined.
  - confined_prints. intros w. apply ret_confined.
Qed.

Lemma CC_script_confined w : confined (names CC.COLORS) w (snd (CC.script w)).
Proof.
  revert w. unfold CC.script.
  apply bind_confined; [intros w; apply path_exists_confined|intros found].
  apply bind_confined.
  { destruct found; cbn [negb].
    - intros w. apply ret_confined.
    - confined_prints. intros w. apply raise_confined. }
  intros _. confined_prints.
  apply bind_confined;
    [apply for_each_confined; intros; apply CC_create_one_confined; assumption
    |intros _].
  confined_prints. intros w. apply print_confined.
Qed.


(* ===================================================================== *)
(** ** One round of the loop *)
(* ===================================================================== *)

Lemma hex_to_rgb_error s e : G.hex_to_rgb s = Raise e -> e = ValueError.
Proof.
  rewrite G_hex_to_rgb_spec.
  destruct (slice_values _) as [[[r g] b]|]; intros H; [discriminate|].
  injection H as <-. reflexivity.
Qed.

Lemma create_color_json_error l d e :
  G.create_color_json l d = Raise e -> e = ValueError.
Proof.
  unfold G.create_color_json.
  destruct (G.hex_to_rgb l) as [[[lr lg] lb]|e1] eqn:El; simpl.
  - destruct (G.hex_to_rgb d) as [[[dr dg] db]|e2] eqn:Ed; simpl; intros H.
    + discriminate.
    + injection H as <-. exact (hex_to_rgb_error _ _ Ed).
  - intros H. injection H as <-. exact (hex_to_rgb_error _ _ El).
Qed.

Ltac run_iteration :=
  unfold iteration, bind, print, mkdir_exist_ok, lift, write_json;
  cbn [fs out trace];
  rewrite ?parent_colorset, ?parent_contents, ?node_at_assets,
    ?node_at_colorset, ?node_at_contents.

Ltac step_iteration :=
  cbn [fs out trace];
  rewrite ?parent_colorset, ?parent_contents, ?node_at_assets,
    ?node_at_colorset, ?node_at_contents,
    ?lookup_insert_eq.

Lemma iteration_raise line n l d w e w' :
  iteration line n l d w = (Raise e, w') -> is_error e = true.
Proof.
  run_iteration.
  destruct (fs w !! assets) as [[|?]|];
    try (intros H; injection H as <- _; reflexivity).
  destruct (fs w !! colorset n) as [[|?]|] eqn:Ec;
    try (intros H; injection H as <- _; reflexivity).
  - destruct (G.create_color_json l d) as [j|e'] eqn:Ej.
    + step_iteration. rewrite Ec.
      destruct (fs w !! contents n) as [[|?]|]; intros H;
        try discriminate H; injection H as <- _; reflexivity.
    + intros H. injection H as <- _.
      rewrite (create_color_json_error _ _ _ Ej). reflexivity.
  - destruct (G.create_color_json l d) as [j|e'] eqn:Ej.
    + step_iteration.
      rewrite (lookup_insert_ne _ _ _ _ (colorset_ne_contents n n)).
      destruct (fs w !! contents n) as [[|?]|]; intros H;
        try discriminate H; injection H as <- _; reflexivity.
    + intros H. injection H as <- _.
      rewrite (create_color_json_error _ _ _ Ej). reflexivity.
Qed.

Lemma iteration_ok line n l d w w' :
  iteration line n l d w = (Ok tt, w') ->
  out w' = out w ++ [line]
  /\ exists evs j,
       trace w' = trace w ++ evs /\ written evs = [contents n]
       /\ G.create_color_json l d = Ok j
       /\ fs w' !! contents n = Some (File (Json.dumps j))
       /\ fs w' !! colorset n = Some Dir.
Proof.
  run_iteration.
  destruct (fs w !! assets) as [[|?]|]; try discriminate.
  destruct (fs w !! colorset n) as [[|?]|] eqn:Ec; try discriminate.
  - destruct (G.create_color_json l d) as [j|e'] eqn:Ej; [|discriminate].
    step_iteration. rewrite Ec.
    assert (Hw : forall o, (Ok tt, World (<[contents n := File (Json.dumps j)]> (fs w))
                   o (trace w ++ [Write (contents n) (Json.dumps j)])) = (Ok tt, w') ->
                 out w' = o /\ exists evs j0,
                   trace w' = trace w ++ evs /\ written evs = [contents n]
                   /\ Ok j = Ok j0
                   /\ fs w' !! contents n = Some (File (Json.dumps j0))
                   /\ fs w' !! colorset n = Some Dir).
    { intros o H. injection H as <-. cbn [fs out trace]. split; [reflexivity|].
      exists [Write (contents n) (Json.dumps j)], j.
      rewrite lookup_insert_eq.
      rewrite lookup_insert_ne by (intros E; symmetry in E; exact (colorset_ne_contents _ _ E)).
      auto. }
    destruct (fs w !! contents n) as [[|?]|]; [discriminate|apply Hw|apply Hw].
  - destruct (G.create_color_json l d) as [j|e'] eqn:Ej; [|discriminate].
    step_iteration.
    rewrite (lookup_insert_ne _ _ _ _ (colorset_ne_contents n n)).
    assert (Hw : forall o, (Ok tt, World (<[contents n := File (Json.dumps j)]>
                                        (<[colorset n := Dir]> (fs w)))
                   o ((trace w ++ [Mkdir (colorset n)])
                        ++ [Write (contents n) (Json.dumps j)])) = (Ok tt, w') ->
                 out w' = o /\ exists evs j0,
                   trace w' = trace w ++ evs /\ written evs = [contents n]
                   /\ Ok j = Ok j0
                   /\ fs w' !! contents n = Some (File (Json.dumps j0))
                   /\ fs w' !! colorset n = Some Dir).
    { intros o H. injection H as <-. cbn [fs out trace]. split; [reflexivity|].
      exists [Mkdir (colorset n); Write (contents n) (Json.dumps j)], j.
      rewrite lookup_insert_eq.
      rewrite lookup_insert_ne by (intros E; symmetry in E; exact (colorset_ne_contents _ _ E)).
      rewrite lookup_insert_eq. rewrite <- app_assoc. auto. }
    destruct (fs w !! contents n) as [[|?]|]; [discriminate|apply Hw|apply Hw].
Qed.

Lemma iteration_ready line n l d j w :
  fs w !! assets = Some Dir ->
  is_file (fs w !! colorset n) = false ->
  is_dir (fs w !! contents n) = false ->
  G.create_color_json l d = Ok j ->
  exists w', iteration line n l d w = (Ok tt, w')
             /\ fs w' = <[contents n := File (Json.dumps j)]>
                          (<[colorset n := Dir]> (fs w)).
Proof.
  intros Ha Hc Ht Hj. run_iteration. rewrite Ha, Hj.
  destruct (fs w !! colorset n) as [[|?]|] eqn:Ec; [|discriminate Hc|].
  - step_iteration. rewrite Ec.
    rewrite (insert_id (fs w) (colorset n) Dir Ec).
    destruct (fs w !! contents n) as [[|?]|]; [discriminate Ht| |];
      eexists; split; reflexivity.
  - step_iteration.
    rewrite (lookup_insert_ne _ _ _ _ (colorset_ne_contents n n)).
    destruct (fs w !! contents n) as [[|?]|]; [discriminate Ht| |];
      eexists; split; reflexivity.
Qed.

(** *** The loops *)

Lemma G_create_one_iteration cnt n l d w :
  plain n ->
  G.create_one cnt (n, (l, d)) w
  = match iteration (G_line n) n l d w with
    | (Ok _, w') => (Ok (cnt + 1), w')
    | (Raise e, w') => (Raise e, w')
    end.
Proof.
  intros Hp. unfold G.create_one, iteration.
  rewrite G_assets_path, (colorset_joinpath _ Hp), contents_joinpath.
  unfold bind. fold (G_line n).
  destruct (print (G_line n) w) as [[[]|e] w1]; [|reflexivity].
  destruct (mkdir_exist_ok (colorset n) w1) as [[[]|e] w2]; [|reflexivity].
  destruct (lift (G.create_color_json l d) w2) as [[j|e] w3]; [|reflexivity].
  destruct (write_json (contents n) j w3) as [[[]|e] w4]; reflexivity.
Qed.

Lemma CC_create_one_iteration u n l d w :
  plain n ->
  CC.create_one u (n, (l, d)) w = iteration (CC_line n) n l d w.
Proof.
  intros Hp. unfold CC.create_one, iteration.
  rewrite CC_assets_path, (colorset_joinpath _ Hp), contents_joinpath.
  rewrite <- create_color_json_data_agree. reflexivity.
Qed.

Section Loop.

Context {S : Type}.
Variable body : S -> string * (string * string) -> M S.
Variable line : string -> string.
Variable next : S -> S.

Hypothesis body_iteration :
  forall s n l d w,
    plain n ->
    body s (n, (l, d)) w
    = match iteration (line n) n l d w with
      | (Ok _, w') => (Ok (next s), w')
      | (Raise e, w') => (Raise e, w')
      end.

Lemma loop_ok entries :
  Forall (fun e => plain (fst e)) entries ->
  forall s w s' w',
    for_each entries body s w = (Ok s', w') ->
    s' = Nat.iter (length entries) next s
    /\ out w' = out w ++ map line (names entries)
    /\ exists evs, trace w' = trace w ++ evs
                   /\ written evs = map contents (names entries).
Proof.
  induction 1 as [|[n [l d]] entries Hp _ IH]; intros s w s' w' H.
  - injection H as <- <-. rewrite !app_nil_r. split; [reflexivity|].
    split; [reflexivity|]. exists []. rewrite app_nil_r. auto.
  - cbn [fst] in Hp. cbn [for_each] in H. unfold bind in H.
    rewrite (body_iteration _ _ _ _ _ Hp) in H.
    destruct (iteration (line n) n l d w) as [[[]|e] w1] eqn:E1;
      cbv beta iota in H; [|discriminate H].
    apply iteration_ok in E1 as (Ho & evs1 & j & Ht & Hw & _).
    apply IH in H as (-> & Ho' & evs2 & Ht' & Hw').
    split; [cbn [length]; rewrite Nat.iter_succ_r; reflexivity|].
    split.
    + rewrite Ho', Ho, <- app_assoc. reflexivity.
    + exists (evs1 ++ evs2). rewrite Ht', Ht, <- app_assoc.
      split; [reflexivity|]. unfold written in *.
      rewrite flat_map_app, Hw, Hw'. reflexivity.
Qed.

Lemma loop_raise entries :
  Forall (fun e => plain (fst e)) entries ->
  forall s w e w',
    for_each entries body s w = (Raise e, w') -> is_error e = true.
Proof.
  induction 1 as [|[n [l d]] entries Hp _ IH]; intros s w e w' H.
  - discriminate H.
  - cbn [fst] in Hp. cbn [for_each] in H. unfold bind in H.
    rewrite (body_iteration _ _ _ _ _ Hp) in H.
    destruct (iteration (line n) n l d w) as [[[]|e1] w1] eqn:E1;
      cbv beta iota in H.
    + eapply IH, H.
    + injection H as <- <-. eapply iteration_raise, E1.
Qed.

Lemma loop_ready entries :
  Forall (fun e => plain (fst e)) entries ->
  Forall (fun e => is_hex_color (fst (snd e)) = true
                   /\ is_hex_color (snd (snd e)) = true) entries ->
  forall s w,
    ready (names entries) w = true ->
    exists s' w', for_each entries body s w = (Ok s', w').
Proof.
  induction 1 as [|[n [l d]] entries Hp _ IH]; intros Hv s w Hr.
  - eexists _, _. reflexivity.
  - cbn [fst] in Hp.
    inversion Hv as [|? ? [Hl Hd] Hv']; subst. cbn [fst snd] in Hl, Hd.
    destruct (create_color_json_ok l d Hl Hd) as (j & Hj).
    unfold ready in Hr. cbn [names map fst forallb] in Hr.
    apply andb_prop in Hr as [Ha Hr]. apply andb_prop in Hr as [Hn Hr].
    apply andb_prop in Hn as [Hc Ht].
    apply negb_true_iff in Hc, Ht.
    assert (Ha' : fs w !! assets = Some Dir).
    { destruct (fs w !! assets) as [[|?]|]; try discriminate Ha. reflexivity. }
    destruct (iteration_ready (line n) n l d j w Ha' Hc Ht Hj) as (w1 & E1 & Hfs).
    cbn [for_each]. unfold bind. rewrite (body_iteration _ _ _ _ _ Hp), E1.
    apply IH; [exact Hv'|].
    unfold ready. rewrite Hfs.
    rewrite (lookup_insert_ne _ _ _ _ (fun E => assets_ne_contents n (eq_sym E))).
    rewrite (lookup_insert_ne _ _ _ _ (fun E => assets_ne_colorset n (eq_sym E))).
    rewrite Ha. cbn [andb].
    rewrite forallb_forall in Hr. apply forallb_forall. intros n' Hn'.
    specialize (Hr n' Hn'). apply andb_prop in Hr as [Hc' Ht'].
    apply andb_true_intro. split.
    + rewrite (lookup_insert_ne _ _ _ _ (fun E => colorset_ne_contents n' n (eq_sym E))).
      destruct (decide (colorset n = colorset n')) as [<-|Hne].
      * rewrite lookup_insert_eq. reflexivity.
      * rewrite lookup_insert_ne by exact Hne. exact Hc'.
    + destruct (decide (contents n = contents n')) as [<-|Hne].
      * rewrite lookup_insert_eq. reflexivity.
      * rewrite lookup_insert_ne by exact Hne.
        rewrite (lookup_insert_ne _ _ _ _ (colorset_ne_contents n n')). exact Ht'.
Qed.

End Loop.

Lemma COLORS_plain :
  Forall (fun e : string * (string * string) => plain (fst e)) G.COLORS
  /\ Forall (fun e : string * (string * string) => plain (fst e)) CC.COLORS.
Proof.
  split; apply List.Forall_forall; intros [n [l d]] Hin; cbn [fst].
  - exact (names_plain _ _ _ (or_introl Hin)).
  - exact (names_plain _ _ _ (or_intror Hin)).
Qed.

Lemma COLORS_valid :
  Forall (fun e : string * (string * string) =>
            is_hex_color (fst (snd e)) = true /\ is_hex_color (snd (snd e)) = true)
         G.COLORS
  /\ Forall (fun e : string * (string * string) =>
            is_hex_color (fst (snd e)) = true /\ is_hex_color (snd (snd e)) = true)
         CC.COLORS.
Proof.
  split; apply List.Forall_forall; intros [n [l d]] Hin; cbn [fst snd].
  - exact (COLORS_are_hex_colors _ _ _ (or_introl Hin)).
  - exact (COLORS_are_hex_colors _ _ _ (or_intror Hin)).
Qed.

(** *** The scripts as a whole *)

Lemma bind_print {A : Type} (s : string) (k : unit -> M A) (w : world) :
  bind (print s) k w = k tt (add_out w [s]).
Proof. reflexivity. Qed.

Lemma add_out_add_out w a b : add_out (add_out w a) b = add_out w (a ++ b).
Proof. unfold add_out. cbn [fs out trace]. rewrite app_assoc. reflexivity. Qed.

Lemma path_exists_missing (w : world) :
  fs w !! assets = None -> path_exists assets w = (Ok false, w).
Proof.
  intros H. unfold path_exists. rewrite node_at_assets, H.
  rewrite bool_decide_eq_false_2; [reflexivity|].
  intros [x Hx]. discriminate Hx.
Qed.

Lemma path_exists_found (w : world) :
  is_Some (fs w !! assets) -> path_exists assets w = (Ok true, w).
Proof.
  intros H. unfold path_exists. rewrite node_at_assets.
  rewrite bool_decide_eq_true_2; [reflexivity|exact H].
Qed.

Lemma G_list_loop (entries : list (string * (string * string))) :
  exists lines, forall w,
    for_each entries G.list_one tt w = (Ok tt, add_out w lines).
Proof.
  induction entries as [|[n [l d]] entries [lines IH]].
  - exists []. intros [f o t]. unfold add_out. cbn. rewrite app_nil_r. reflexivity.
  - eexists. intros w. cbn [for_each G.list_one].
    rewrite bind_print. cbv beta. rewrite IH, add_out_add_out. reflexivity.
Qed.


Lemma G_main_missing (w : world) :
  fs w !! assets = None ->
  exists lines, G.main w = (Ok 1, add_out w lines).
Proof.
  intros H. eexists. unfold G.main.
  repeat (rewrite bind_print; cbv beta).
  unfold bind at 1. change G.assets_path with assets.
  rewrite path_exists_missing by exact H. cbv beta iota. cbn [negb].
  repeat (rewrite bind_print; cbv beta).
  rewrite !add_out_add_out. reflexivity.
Qed.

Lemma G_main_found :
  exists before after, forall w,
    is_Some (fs w !! assets) ->
    G.main w
    = match for_each G.COLORS G.create_one 0 (add_out w before) with
      | (Ok count, w') =>
          (Ok 0, add_out w' (([""%string; PyStr.replicate 50 "="]
                                ++ [G_success_message count]) ++ after))
      | (Raise e, w') => (Raise e, w')
      end.
Proof.
  destruct (G_list_loop G.COLORS) as [lines Hl].
  eexists. eexists. intros w Hw. unfold G.main.
  repeat (rewrite bind_print; cbv beta).
  unfold bind at 1. change G.assets_path with assets.
  rewrite path_exists_found by exact Hw. cbv beta iota. cbn [negb].
  repeat (rewrite bind_print; cbv beta).
  rewrite !add_out_add_out. unfold bind at 1.
  match goal with
  | |- context [for_each G.COLORS G.create_one 0 (add_out w ?L)] =>
      instantiate (2 := L)
  end.
  destruct (for_each G.COLORS G.create_one 0 _) as [[count|e] w1]; [|reflexivity].
  repeat (rewrite bind_print; cbv beta).
  unfold bind at 1. rewrite Hl. cbv beta iota.
  repeat (rewrite bind_print; cbv beta).
  rewrite !add_out_add_out. unfold ret. cbn [app].
  reflexivity.
Qed.

Lemma CC_script_missing (w : world) :
  fs w !! assets = None ->
  exists lines, CC.script w = (Raise (SystemExit 1), add_out w lines).
Proof.
  intros H. eexists. unfold CC.script.
  unfold bind at 1. change CC.assets_path with assets.
  rewrite path_exists_missing by exact H. cbv beta iota. cbn [negb].
  unfold bind at 1. rewrite bind_print. cbv beta. reflexivity.
Qed.

Lemma CC_script_found :
  exists after, forall w,
    is_Some (fs w !! assets) ->
    CC.script w
    = match for_each CC.COLORS CC.create_one tt
              (add_out w ["🎨 Creating GutCheck color assets..."%string]) with
      | (Ok _, w') => (Ok tt, add_out w' ([CC_success_message 17] ++ after))
      | (Raise e, w') => (Raise e, w')
      end.
Proof.
  eexists. intros w Hw. unfold CC.script.
  unfold bind at 1. change CC.assets_path with assets.
  rewrite path_exists_found by exact Hw. cbv beta iota. cbn [negb].
  unfold bind at 1. unfold ret at 1. cbv beta iota.
  rewrite bind_print. cbv beta. unfold bind at 1.
  destruct (for_each CC.COLORS CC.create_one tt _) as [[[]|e] w1]; [|reflexivity].
  repeat (rewrite bind_print; cbv beta).
  change (print ?s ?w) with (Ok tt, add_out w [s]).
  rewrite !add_out_add_out. cbn [app]. reflexivity.
Qed.

Lemma crashed_of_error (e : exn) (w : world) :
  is_error e = true ->
  match e with
  | SystemExit n => (Exited n, w)
  | _ => (Crashed e, w)
  end = (Crashed e, w).
Proof. destruct e; intros H; try reflexivity. discriminate H. Qed.

Lemma G_loop_raise s w e w' :
  for_each G.COLORS G.create_one s w = (Raise e, w') -> is_error e = true.
Proof.
  apply (loop_raise G.create_one G_line (fun c => c + 1)).
  - intros. apply G_create_one_iteration. assumption.
  - apply COLORS_plain.
Qed.

Lemma CC_loop_raise s w e w' :
  for_each CC.COLORS CC.create_one s w = (Raise e, w') -> is_error e = true.
Proof.
  apply (loop_raise CC.create_one CC_line (fun u => u)).
  - intros s0 n l d w0 Hp. rewrite (CC_create_one_iteration _ _ _ _ _ Hp).
    destruct s0. destruct (iteration _ _ _ _ _) as [[[]|?] ?]; reflexivity.
  - apply COLORS_plain.
Qed.

Lemma G_run_missing (w : world) :
  fs w !! assets = None ->
  exists lines, G.main w = (Ok 1, add_out w lines)
                /\ G.run w = (Exited 1, add_out w lines).
Proof.
  intros H. destruct (G_main_missing w H) as [lines Hm].
  exists lines. split; [exact Hm|].
  unfold G.run, run_script, G.script, bind. rewrite Hm. reflexivity.
Qed.

Lemma CC_run_missing (w : world) :
  fs w !! assets = None ->
  exists lines, CC.run w = (Exited 1, add_out w lines).
Proof.
  intros H. destruct (CC_script_missing w H) as [lines Hm].
  exists lines. unfold CC.run, run_script. rewrite Hm. reflexivity.
Qed.

Lemma G_run_found :
  exists before after, forall w,
    is_Some (fs w !! assets) ->
    match for_each G.COLORS G.create_one 0 (add_out w before) with
    | (Ok count, w') =>
        G.main w = (Ok 0, add_out w' (([""%string; PyStr.replicate 50 "="]
                                ++ [G_success_message count]) ++ after))
        /\ G.run w = (Exited 0, add_out w' (([""%string; PyStr.replicate 50 "="]
                                ++ [G_success_message count]) ++ after))
    | (Raise e, w') =>
        is_error e = true /\ G.main w = (Raise e, w') /\ G.run w = (Crashed e, w')
    end.
Proof.
  destruct G_main_found as (before & after & Hm).
  exists before, after. intros w Hw. specialize (Hm w Hw).
  unfold G.run, run_script, G.script, bind. rewrite Hm.
  destruct (for_each G.COLORS G.create_one 0 (add_out w before))
    as [[count|e] w1] eqn:El.
  - split; reflexivity.
  - pose proof (G_loop_raise _ _ _ _ El) as He.
    split; [exact He|]. split; [reflexivity|]. apply crashed_of_error, He.
Qed.

Lemma CC_run_found :
  exists after, forall w,
    is_Some (fs w !! assets) ->
    match for_each CC.COLORS CC.create_one tt
            (add_out w ["🎨 Creating GutCheck color assets..."%string]) with
    | (Ok _, w') =>
        CC.run w = (Exited 0, add_out w' ([CC_success_message 17] ++ after))
    | (Raise e, w') => is_error e = true /\ CC.run w = (Crashed e, w')
    end.
Proof.
  destruct CC_script_found as (after & Hm).
  exists after. intros w Hw. specialize (Hm w Hw).
  unfold CC.run, run_script. rewrite Hm.
  destruct (for_each CC.COLORS CC.create_one tt _) as [[[]|e] w1] eqn:El.
  - reflexivity.
  - pose proof (CC_loop_raise _ _ _ _ El) as He.
    split; [exact He|]. apply crashed_of_error, He.
Qed.

Lemma ready_add_out ns w lines : ready ns (add_out w lines) = ready ns w.
Proof. reflexivity. Qed.

Lemma ready_found ns w : ready ns w = true -> is_Some (fs w !! assets).
Proof.
  unfold ready. intros H. apply andb_prop in H as [H _].
  destruct (fs w !! assets) as [[|?]|]; try discriminate H. eauto.
Qed.

Lemma G_run_ready (w : world) :
  ready (names G.COLORS) w = true -> exists w', G.run w = (Exited 0, w').
Proof.
  intros Hr. destruct G_run_found as (before & after & Hf).
  specialize (Hf w (ready_found _ _ Hr)).
  destruct (loop_ready G.create_one G_line (fun c => c + 1)
              (fun s n l d w0 Hp => G_create_one_iteration s n l d w0 Hp)
              G.COLORS (proj1 COLORS_plain) (proj1 COLORS_valid) 0
              (add_out w before) Hr) as (s' & w1 & El).
  rewrite El in Hf. destruct Hf as [_ Hrun]. eauto.
Qed.

Lemma CC_run_ready (w : world) :
  ready (names CC.COLORS) w = true -> exists w', CC.run w = (Exited 0, w').
Proof.
  intros Hr. destruct CC_run_found as (after & Hf).
  specialize (Hf w (ready_found _ _ Hr)).
  assert (Hb : forall (s : unit) n l d w0, plain n ->
             CC.create_one s (n, (l, d)) w0
             = match iteration (CC_line n) n l d w0 with
               | (Ok _, w') => (Ok s, w')
               | (Raise e, w') => (Raise e, w')
               end).
  { intros s n l d w0 Hp. rewrite (CC_create_one_iteration _ _ _ _ _ Hp).
    destruct s. destruct (iteration _ _ _ _ _) as [[[]|?] ?]; reflexivity. }
  destruct (loop_ready CC.create_one CC_line (fun u => u) Hb
              CC.COLORS (proj2 COLORS_plain) (proj2 COLORS_valid) tt
              (add_out w ["🎨 Creating GutCheck color assets..."%string]) Hr)
    as ([] & w1 & El).
  rewrite El in Hf. eauto.
Qed.


(* ===================================================================== *)
(** ** Outcomes of a run *)
(* ===================================================================== *)

Lemma pair_of_fst {A B : Type} (p : A * B) (a : A) : fst p = a -> p = (a, snd p).
Proof. destruct p. simpl. intros ->. reflexivity. Qed.







Lemma below_assets_paths (n : string) :
  below_assets (colorset n) /\ below_assets (contents n).
Proof.
  split; eexists; (split; [|reflexivity]); discriminate.
Qed.

Lemma confined_outside ns w w' p :
  confined ns w w' -> ~ below_assets p -> fs w' !! p = fs w !! p.
Proof.
  intros [_ Hf] Hp.
  destruct (Hf p) as [E|[(n & _ & -> & _)|(n & _ & -> & _)]]; [exact E| |];
    exfalso; apply Hp, below_assets_paths.
Qed.

Lemma G_run_confined (w : world) :
  confined (names G.COLORS) w (snd (G.run w)).
Proof.
  unfold G.run. rewrite run_script_world. revert w. unfold G.script.
  apply bind_confined; [apply G_main_confined|].
  intros status w. apply raise_confined.
Qed.

Lemma CC_run_confined (w : world) :
  confined (names CC.COLORS) w (snd (CC.run w)).
Proof.
  unfold CC.run. rewrite run_script_world. apply CC_script_confined.
Qed.


(* ===================================================================== *)
(** ** Further properties of [hex_to_rgb] *)
(* ===================================================================== *)

Lemma lstrip_app (c : ascii) (s t : string) :
  PyStr.lstrip c s <> EmptyString ->
  PyStr.lstrip c (s +:+ t) = PyStr.lstrip c s +:+ t.
Proof.
  induction s as [|a s IH]; intros H.
  - exfalso. apply H. reflexivity.
  - change (String a s +:+ t) with (String a (s +:+ t)).
    cbn [PyStr.lstrip] in *.
    destruct (Ascii.eqb a c); [apply IH, H|reflexivity].
Qed.

Lemma take_app (n : nat) (h t : string) :
  (n <= String.length h)%nat -> PyStr.take n (h +:+ t) = PyStr.take n h.
Proof.
  revert h. induction n as [|n IH]; intros h Hn.
  - destruct h; reflexivity.
  - destruct h as [|a h]; [simpl in Hn; lia|].
    change (String a h +:+ t) with (String a (h +:+ t)).
    cbn [PyStr.take]. rewrite IH; [reflexivity|]. simpl in Hn. lia.
Qed.

Lemma drop_app (n : nat) (h t : string) :
  (n <= String.length h)%nat -> PyStr.drop n (h +:+ t) = PyStr.drop n h +:+ t.
Proof.
  revert h. induction n as [|n IH]; intros h Hn.
  - reflexivity.
  - destruct h as [|a h]; [simpl in Hn; lia|].
    change (String a h +:+ t) with (String a (h +:+ t)).
    cbn [PyStr.drop]. apply IH. simpl in Hn. lia.
Qed.

Lemma drop_length (n : nat) (h : string) :
  String.length (PyStr.drop n h) = (String.length h - n)%nat.
Proof.
  revert h. induction n as [|n IH]; intros h.
  - simpl. lia.
  - destruct h as [|a h]; [reflexivity|]. simpl. apply IH.
Qed.

Lemma slice_app (i j : nat) (h t : string) :
  (i <= j)%nat -> (j <= String.length h)%nat ->
  PyStr.slice i j (h +:+ t) = PyStr.slice i j h.
Proof.
  intros Hij Hj. unfold PyStr.slice.
  rewrite drop_app by lia. apply take_app. rewrite drop_length. lia.
Qed.

(** X1: characters after the sixth are never read: a longer string, such as
    an eight-digit colour with an alpha pair, converts like its first
    six stripped characters. *)
Theorem hex_to_rgb_ignores_tail (s t : string) :
  (6 <= String.length (PyStr.lstrip "#" s))%nat ->
  G.hex_to_rgb (s +:+ t) = G.hex_to_rgb s
  /\ CC.hex_to_rgb (s +:+ t) = CC.hex_to_rgb s.
Proof.
  intros H.
  assert (Hl : PyStr.lstrip "#" (s +:+ t) = PyStr.lstrip "#" s +:+ t).
  { apply lstrip_app. intros E. rewrite E in H. simpl in H. lia. }
  assert (Hv : slice_values (PyStr.lstrip "#" (s +:+ t))
               = slice_values (PyStr.lstrip "#" s)).
  { rewrite Hl. unfold slice_values. rewrite !slice_app by lia. reflexivity. }
  rewrite !G_hex_to_rgb_spec, !CC_hex_to_rgb_spec, Hv. split; reflexivity.
Qed.

Lemma hex_to_rgb_ignores_tail_witness :
  G.hex_to_rgb ("#0891B2" +:+ "FF") = G.hex_to_rgb "#0891B2".
Proof.
  refine (proj1 (hex_to_rgb_ignores_tail "#0891B2" "FF" _)).
  simpl. lia.
Defined.

Lemma digit_value_case (c : ascii) :
  PyStr.digit_value (ascii_lower c) = PyStr.digit_value c
  /\ PyStr.digit_value (ascii_upper c) = PyStr.digit_value c.
Proof.
  revert c.
  enough (H : forall c,
             (PyStr.digit_value (ascii_lower c) =? PyStr.digit_value c)
             && (PyStr.digit_value (ascii_upper c) =? PyStr.digit_value c) = true).
  { intros c. specialize (H c). apply andb_prop in H as [H1 H2]. lia. }
  apply forall_ascii. vm_compute. reflexivity.
Qed.

Lemma hex_bytes_case (f : ascii -> ascii) (s : string) (r g b : Z) :
  f "#"%char = "#"%char ->
  (forall c, PyStr.digit_value (f c) = PyStr.digit_value c) ->
  hex_bytes s = Some (r, g, b) -> hex_bytes (map_chars f s) = Some (r, g, b).
Proof.
  intros Hh Hf H.
  apply hex_bytes_inv in H as (c1 & c2 & c3 & c4 & c5 & c6 & -> & Hd & -> & -> & ->).
  cbn [map_chars]. rewrite Hh. unfold hex_bytes, pair_value.
  cbn [forallb]. unfold PyStr.is_hex_digit. rewrite !Hf.
  repeat match goal with
         | H : Forall _ (_ :: _) |- _ => inversion H; subst; clear H
         end.
  unfold PyStr.is_hex_digit in *.
  repeat match goal with
         | H : (_ <? 16) = true |- _ => rewrite H; clear H
         end.
  reflexivity.
Qed.

(** X2: hexadecimal digits are read without regard to case: the lower-case
    and the upper-case spelling of a colour give the same triple. *)
Theorem hex_to_rgb_case_insensitive (s : string) (r g b : Z) :
  hex_bytes s = Some (r, g, b) ->
  G.hex_to_rgb (map_chars ascii_lower s) = G.hex_to_rgb s
  /\ G.hex_to_rgb (map_chars ascii_upper s) = G.hex_to_rgb s
  /\ CC.hex_to_rgb (map_chars ascii_lower s) = CC.hex_to_rgb s
  /\ CC.hex_to_rgb (map_chars ascii_upper s) = CC.hex_to_rgb s.
Proof.
  intros H.
  pose proof (hex_bytes_case ascii_lower s r g b eq_refl
                (fun c => proj1 (digit_value_case c)) H) as Hl.
  pose proof (hex_bytes_case ascii_upper s r g b eq_refl
                (fun c => proj2 (digit_value_case c)) H) as Hu.
  destruct (hex_color_rgb _ _ _ _ H) as [HG HC].
  destruct (hex_color_rgb _ _ _ _ Hl) as [HGl HCl].
  destruct (hex_color_rgb _ _ _ _ Hu) as [HGu HCu].
  rewrite HG, HC, HGl, HCl, HGu, HCu. auto.
Qed.

Lemma hex_to_rgb_case_insensitive_witness :
  map_chars ascii_lower "#F8FAFC" = "#f8fafc"%string
  /\ G.hex_to_rgb (map_chars ascii_lower "#F8FAFC") = G.hex_to_rgb "#F8FAFC".
Proof.
  split; [reflexivity|].
  exact (proj1 (hex_to_rgb_case_insensitive "#F8FAFC" 248 250 252 eq_refl)).
Defined.

(** X3: three decimal places keep the byte: the nearest byte to
    [255 * k / 1000], for the thousandths [k] of a component string, is
    the byte the string was made from; so distinct bytes give distinct
    component strings. *)
Theorem component_round_trip (n m : Z) :
  0 <= n < 256 -> 0 <= m < 256 ->
  (exists k, thousandths_of (component n) = Some k
             /\ byte_of_thousandths k = n)
  /\ (component n = component m -> n = m).
Proof.
  assert (H : forall n, 0 <= n < 256 ->
            exists k, thousandths_of (component n) = Some k
                      /\ byte_of_thousandths k = n).
  { intros x Hx.
    assert (Hb : match thousandths_of (component x) with
                 | Some k => byte_of_thousandths k =? x
                 | None => false
                 end = true).
    { revert x Hx. apply forall_byte. vm_compute. reflexivity. }
    destruct (thousandths_of (component x)) as [k|]; [|discriminate Hb].
    exists k. split; [reflexivity|]. lia. }
  intros Hn Hm. split; [apply H, Hn|].
  intros E. destruct (H n Hn) as (k & Hk & <-). destruct (H m Hm) as (k' & Hk' & <-).
  rewrite E in Hk. rewrite Hk in Hk'. injection Hk' as ->. reflexivity.
Qed.

Lemma component_round_trip_witness :
  exists k, thousandths_of (component 178) = Some k
            /\ byte_of_thousandths k = 178.
Proof.
  refine (proj1 (component_round_trip 178 0 _ _)); lia.
Defined.

Lemma literal_value_range (s : string) (n : Z) :
  literal_value s = Some n -> -15 <= n < 256.
Proof.
  assert (H1 : forall a, match literal_value (String a EmptyString) with
                         | Some n => (-15 <=? n) && (n <? 256)
                         | None => true
                         end = true).
  { apply forall_ascii. vm_compute. reflexivity. }
  assert (H2 : forall a b, match literal_value (String a (String b EmptyString)) with
                           | Some n => (-15 <=? n) && (n <? 256)
                           | None => true
                           end = true).
  { apply forall_ascii2. vm_compute. reflexivity. }
  destruct s as [|a [|b [|c s]]]; intros H; try discriminate H.
  - specialize (H1 a). rewrite H in H1. apply andb_prop in H1. lia.
  - specialize (H2 a b). rewrite H in H2. apply andb_prop in H2. lia.
Qed.

Lemma div255_range (n : Z) :
  -15 <= n < 256 ->
  PrimFloat.leb (PyFloat.div255 (-15)) (PyFloat.div255 n) = true
  /\ PrimFloat.leb (PyFloat.div255 n) 1%float = true.
Proof.
  intros Hn. apply andb_prop.
  assert (H : forallb (fun k => PrimFloat.leb (PyFloat.div255 (-15)) (PyFloat.div255 k)
                                && PrimFloat.leb (PyFloat.div255 k) 1%float)
                (map (fun i => Z.of_nat i - 15) (seq 0 271)) = true)
    by (vm_compute; reflexivity).
  rewrite forallb_forall in H. apply H.
  replace n with (Z.of_nat (Z.to_nat (n + 15)) - 15) by lia.
  apply (in_map (fun i => Z.of_nat i - 15)), in_seq. lia.
Qed.

(** X4: on every input it accepts, [hex_to_rgb] returns components between
    [-15/255] and [1]: a slice such as [-f] is read as a negative
    number, so the unit interval is kept on [#RRGGBB] strings only. *)
Theorem hex_to_rgb_range (s : string) (r g b : float) :
  G.hex_to_rgb s = Ok (r, g, b) \/ CC.hex_to_rgb s = Ok [r; g; b] ->
  Forall (fun x => PrimFloat.leb (PyFloat.div255 (-15)) x = true
                   /\ PrimFloat.leb x 1%float = true) [r; g; b].
Proof.
  rewrite G_hex_to_rgb_spec, CC_hex_to_rgb_spec. unfold slice_values.
  destruct (literal_value (PyStr.slice 0 2 _)) as [x|] eqn:Ex;
    [|intros [H|H]; discriminate H].
  destruct (literal_value (PyStr.slice 2 4 _)) as [y|] eqn:Ey;
    [|intros [H|H]; discriminate H].
  destruct (literal_value (PyStr.slice 4 6 _)) as [z|] eqn:Ez;
    [|intros [H|H]; discriminate H].
  apply literal_value_range in Ex, Ey, Ez.
  intros H.
  assert (E : r = PyFloat.div255 x /\ g = PyFloat.div255 y /\ b = PyFloat.div255 z).
  { destruct H as [H|H]; injection H as <- <- <-; auto. }
  destruct E as (-> & -> & ->).
  repeat (constructor; [apply div255_range; assumption|]). constructor.
Qed.

Lemma hex_to_rgb_range_witness :
  G.hex_to_rgb "-f-f-f"
  = Ok (PyFloat.div255 (-15), PyFloat.div255 (-15), PyFloat.div255 (-15))
  /\ PrimFloat.ltb (PyFloat.div255 (-15)) 0%float = true
  /\ Forall (fun x => PrimFloat.leb (PyFloat.div255 (-15)) x = true
                      /\ PrimFloat.leb x 1%float = true)
            [PyFloat.div255 (-15); PyFloat.div255 (-15); PyFloat.div255 (-15)].
Proof.
  assert (H : G.hex_to_rgb "-f-f-f"
              = Ok (PyFloat.div255 (-15), PyFloat.div255 (-15), PyFloat.div255 (-15)))
    by (vm_compute; reflexivity).
  split; [exact H|]. split; [vm_compute; reflexivity|].
  exact (hex_to_rgb_range "-f-f-f" _ _ _ (or_introl H)).
Defined.

(* ===================================================================== *)
(** ** Which runs succeed, and how the others end *)
(* ===================================================================== *)

Lemma string_app_length (a s : string) :
  String.length (a +:+ s) = (String.length a + String.length s)%nat.
Proof.
  induction a as [|c a IH]; [reflexivity|].
  change (String c a +:+ s) with (String c (a +:+ s)). simpl. rewrite IH. reflexivity.
Qed.

Lemma string_app_inv_r (a b s : string) : a +:+ s = b +:+ s -> a = b.
Proof.
  revert b. induction a as [|c a IH]; intros [|c' b] H.
  - reflexivity.
  - apply (f_equal String.length) in H. rewrite !string_app_length in H.
    simpl in H. lia.
  - apply (f_equal String.length) in H. rewrite !string_app_length in H.
    simpl in H. lia.
  - change (String c (a +:+ s) = String c' (b +:+ s)) in H.
    injection H as -> H. f_equal. apply IH, H.
Qed.

Lemma colorset_inj (n n' : string) : colorset n = colorset n' -> n = n'.
Proof.
  unfold colorset. intros H. apply app_inv_head in H.
  injection H as H. apply string_app_inv_r in H. exact H.
Qed.

Lemma contents_inj (n n' : string) : contents n = contents n' -> n = n'.
Proof.
  unfold contents. intros H. apply app_inv_head in H.
  injection H as H. apply string_app_inv_r in H. exact H.
Qed.

Lemma is_file_false_dir (o : option node) : o = Some Dir -> is_file o = false.
Proof. intros ->. reflexivity. Qed.

Lemma iteration_blocked_colorset line n l d w :
  fs w !! assets = Some Dir ->
  is_file (fs w !! colorset n) = true ->
  iteration line n l d w = (Raise FileExistsError, add_out w [line]).
Proof.
  intros Ha Hc. run_iteration. rewrite Ha.
  destruct (fs w !! colorset n) as [[|?]|]; try discriminate Hc. reflexivity.
Qed.

Lemma iteration_blocked_contents line n l d j w :
  fs w !! assets = Some Dir ->
  is_file (fs w !! colorset n) = false ->
  is_dir (fs w !! contents n) = true ->
  G.create_color_json l d = Ok j ->
  exists w' evs, iteration line n l d w = (Raise IsADirectoryError, w')
                 /\ trace w' = trace w ++ evs /\ written evs = [].
Proof.
  intros Ha Hc Ht Hj. run_iteration. rewrite Ha, Hj.
  destruct (fs w !! colorset n) as [[|?]|] eqn:Ec; [|discriminate Hc|].
  - step_iteration. rewrite Ec.
    destruct (fs w !! contents n) as [[|?]|]; try discriminate Ht.
    eexists _, []. split; [reflexivity|]. cbn [trace]. rewrite app_nil_r. auto.
  - step_iteration.
    rewrite (lookup_insert_ne _ _ _ _ (colorset_ne_contents n n)).
    destruct (fs w !! contents n) as [[|?]|]; try discriminate Ht.
    eexists _, [Mkdir (colorset n)]. split; [reflexivity|]. auto.
Qed.

Lemma iteration_assets_file line n l d w text :
  fs w !! assets = Some (File text) ->
  iteration line n l d w = (Raise NotADirectoryError, add_out w [line]).
Proof. intros Ha. run_iteration. rewrite Ha. reflexivity. Qed.

(** The nodes of another colour after one round. *)
Lemma after_round_colorset (m : gmap (list string) node) n n' text :
  is_file (<[contents n := File text]> (<[colorset n := Dir]> m) !! colorset n')
  = if decide (n = n') then false else is_file (m !! colorset n').
Proof.
  rewrite (lookup_insert_ne _ _ _ _ (fun E => colorset_ne_contents n' n (eq_sym E))).
  destruct (decide (n = n')) as [<-|Hne].
  - rewrite lookup_insert_eq. reflexivity.
  - rewrite lookup_insert_ne; [reflexivity|].
    intros E. apply Hne, colorset_inj, E.
Qed.

Lemma after_round_contents (m : gmap (list string) node) n n' text :
  is_dir (<[contents n := File text]> (<[colorset n := Dir]> m) !! contents n')
  = if decide (n = n') then false else is_dir (m !! contents n').
Proof.
  destruct (decide (n = n')) as [<-|Hne].
  - rewrite lookup_insert_eq. reflexivity.
  - rewrite lookup_insert_ne by (intros E; apply Hne, contents_inj, E).
    rewrite (lookup_insert_ne _ _ _ _ (colorset_ne_contents n n')). reflexivity.
Qed.

Lemma after_round_assets (m : gmap (list string) node) n text :
  <[contents n := File text]> (<[colorset n := Dir]> m) !! assets = m !! assets.
Proof.
  rewrite (lookup_insert_ne _ _ _ _ (fun E => assets_ne_contents n (eq_sym E))).
  apply (lookup_insert_ne _ _ _ _ (fun E => assets_ne_colorset n (eq_sym E))).
Qed.

Lemma obstacle_after_round (w w1 : world) (n n' text : string) :
  obstacle w n = None ->
  fs w1 = <[contents n := File text]> (<[colorset n := Dir]> (fs w)) ->
  obstacle w1 n' = obstacle w n'.
Proof.
  unfold obstacle. intros Hn Hfs. rewrite Hfs.
  rewrite after_round_colorset, after_round_contents.
  destruct (decide (n = n')) as [<-|Hne]; [|reflexivity].
  destruct (is_file (fs w !! colorset n)); [discriminate Hn|].
  destruct (is_dir (fs w !! contents n)); [discriminate Hn|reflexivity].
Qed.

Lemma obstacles_after_round (w w1 : world) (n text : string) (ns : list string) :
  obstacle w n = None ->
  fs w1 = <[contents n := File text]> (<[colorset n := Dir]> (fs w)) ->
  first_obstacle ns w1 = first_obstacle ns w
  /\ before_obstacle ns w1 = before_obstacle ns w.
Proof.
  intros Hn Hfs. induction ns as [|n' ns [IH1 IH2]]; [split; reflexivity|].
  cbn [first_obstacle before_obstacle].
  rewrite (obstacle_after_round w w1 n n' text Hn Hfs), IH1, IH2.
  split; reflexivity.
Qed.

Section Outcome.

Context {S : Type}.
Variable body : S -> string * (string * string) -> M S.
Variable line : string -> string.
Variable next : S -> S.

Hypothesis body_iteration :
  forall s n l d w,
    plain n ->
    body s (n, (l, d)) w
    = match iteration (line n) n l d w with
      | (Ok _, w') => (Ok (next s), w')
      | (Raise e, w') => (Raise e, w')
      end.

(** Inside the assets directory the loop goes through the colours in
    table order up to the first obstacle, writing one file for each. *)
Lemma loop_exact entries :
  Forall (fun e => plain (fst e)) entries ->
  Forall (fun e => is_hex_color (fst (snd e)) = true
                   /\ is_hex_color (snd (snd e)) = true) entries ->
  forall s w,
    fs w !! assets = Some Dir ->
    exists w' evs,
      for_each entries body s w
      = (match first_obstacle (names entries) w with
         | Some e => Raise e
         | None => Ok (Nat.iter (length entries) next s)
         end, w')
      /\ trace w' = trace w ++ evs
      /\ written evs = map contents (before_obstacle (names entries) w).
Proof.
  induction 1 as [|[n [l d]] entries Hp _ IH]; intros Hv s w Ha.
  - exists w, []. cbn. rewrite app_nil_r. auto.
  - cbn [fst] in Hp.
    inversion Hv as [|? ? [Hl Hd] Hv']; subst. cbn [fst snd] in Hl, Hd.
    destruct (create_color_json_ok l d Hl Hd) as (j & Hj).
    cbn [for_each names map fst first_obstacle before_obstacle].
    unfold bind. rewrite (body_iteration _ _ _ _ _ Hp).
    unfold obstacle at 1 2.
    destruct (is_file (fs w !! colorset n)) eqn:Hc.
    { rewrite (iteration_blocked_colorset (line n) n l d w Ha Hc).
      exists (add_out w [line n]), []. cbn [trace add_out map].
      rewrite app_nil_r. auto. }
    destruct (is_dir (fs w !! contents n)) eqn:Ht.
    { destruct (iteration_blocked_contents (line n) n l d j w Ha Hc Ht Hj)
        as (w1 & evs & -> & Htr & Hw).
      exists w1, evs. auto. }
    destruct (iteration_ready (line n) n l d j w Ha Hc Ht Hj) as (w1 & E1 & Hfs).
    rewrite E1.
    apply iteration_ok in E1 as (_ & evs1 & _ & Ht1 & Hw1 & _).
    assert (Ha1 : fs w1 !! assets = Some Dir).
    { rewrite Hfs, after_round_assets. exact Ha. }
    assert (Hn : obstacle w n = None) by (unfold obstacle; rewrite Hc, Ht; reflexivity).
    destruct (obstacles_after_round w w1 n (Json.dumps j) (names entries) Hn Hfs)
      as [Ho1 Ho2].
    destruct (IH Hv' (next s) w1 Ha1) as (w' & evs & E & Htr & Hw).
    exists w', (evs1 ++ evs). fold (names entries).
    rewrite E, Ho1. split.
    { cbn [length]. rewrite Nat.iter_succ_r. reflexivity. }
    split.
    { rewrite Htr, Ht1, <- app_assoc. reflexivity. }
    unfold written in *. rewrite flat_map_app, Hw1, Hw, Ho2. reflexivity.
Qed.

Lemma loop_assets_file n l d entries s w text :
  plain n ->
  fs w !! assets = Some (File text) ->
  for_each ((n, (l, d)) :: entries) body s w
  = (Raise NotADirectoryError, add_out w [line n]).
Proof.
  intros Hp Ha. cbn [for_each]. unfold bind.
  rewrite (body_iteration _ _ _ _ _ Hp),
    (iteration_assets_file (line n) n l d w text Ha).
  reflexivity.
Qed.

End Outcome.

Lemma CC_create_one_body (s : unit) n l d w :
  plain n ->
  CC.create_one s (n, (l, d)) w
  = match iteration (CC_line n) n l d w with
    | (Ok _, w') => (Ok s, w')
    | (Raise e, w') => (Raise e, w')
    end.
Proof.
  intros Hp. rewrite (CC_create_one_iteration _ _ _ _ _ Hp).
  destruct s. destruct (iteration _ _ _ _ _) as [[[]|?] ?]; reflexivity.
Qed.

Lemma obstacles_add_out ns w lines :
  first_obstacle ns (add_out w lines) = first_obstacle ns w
  /\ before_obstacle ns (add_out w lines) = before_obstacle ns w.
Proof.
  induction ns as [|n ns [IH1 IH2]]; [split; reflexivity|].
  cbn [first_obstacle before_obstacle]. rewrite IH1, IH2.
  split; reflexivity.
Qed.

Lemma G_run_exact (w : world) :
  exists evs,
    fst (G.run w) = expected_outcome (names G.COLORS) w
    /\ trace (snd (G.run w)) = trace w ++ evs
    /\ written evs = map contents (expected_progress (names G.COLORS) w).
Proof.
  unfold expected_outcome, expected_progress.
  destruct (fs w !! assets) as [[|text]|] eqn:Ea.
  - destruct G_run_found as (before & after & Hf).
    specialize (Hf w). rewrite Ea in Hf. specialize (Hf (ltac:(eauto))).
    destruct (loop_exact G.create_one G_line (fun c => c + 1)
                (fun s n l d w0 Hp => G_create_one_iteration s n l d w0 Hp)
                G.COLORS (proj1 COLORS_plain) (proj1 COLORS_valid) 0
                (add_out w before) Ea) as (w1 & evs & El & Ht & Hw).
    rewrite El in Hf.
    destruct (obstacles_add_out (names G.COLORS) w before) as [-> ->] in Hf, Hw.
    exists evs.
    destruct (first_obstacle (names G.COLORS) w) as [e|].
    + destruct Hf as (_ & _ & ->). auto.
    + destruct Hf as [_ ->]. auto.
  - destruct G_run_found as (before & after & Hf).
    specialize (Hf w). rewrite Ea in Hf. specialize (Hf (ltac:(eauto))).
    unfold G.COLORS in Hf at 1.
    rewrite (loop_assets_file G.create_one G_line (fun c => c + 1)
               (fun s n l d w0 Hp => G_create_one_iteration s n l d w0 Hp)
               "PrimaryColor" _ _ _ 0 (add_out w before) text
               (names_plain "PrimaryColor" "#0891B2" "#06B6D4"
                  (or_introl (or_introl eq_refl))) Ea) in Hf.
    destruct Hf as (_ & _ & ->). exists []. cbn [fst snd trace add_out map].
    rewrite app_nil_r. auto.
  - destruct (G_run_missing w Ea) as (lines & _ & ->).
    exists []. cbn [fst snd trace add_out map]. rewrite app_nil_r. auto.
Qed.

Lemma CC_run_exact (w : world) :
  exists evs,
    fst (CC.run w) = expected_outcome (names CC.COLORS) w
    /\ trace (snd (CC.run w)) = trace w ++ evs
    /\ written evs = map contents (expected_progress (names CC.COLORS) w).
Proof.
  unfold expected_outcome, expected_progress.
  destruct (fs w !! assets) as [[|text]|] eqn:Ea.
  - destruct CC_run_found as (after & Hf).
    specialize (Hf w). rewrite Ea in Hf. specialize (Hf (ltac:(eauto))).
    destruct (loop_exact CC.create_one CC_line (fun u => u) CC_create_one_body
                CC.COLORS (proj2 COLORS_plain) (proj2 COLORS_valid) tt
                (add_out w ["🎨 Creating GutCheck color assets..."%string]) Ea)
      as (w1 & evs & El & Ht & Hw).
    rewrite El in Hf.
    destruct (obstacles_add_out (names CC.COLORS) w
                ["🎨 Creating GutCheck color assets..."%string]) as [-> ->] in Hf, Hw.
    exists evs.
    destruct (first_obstacle (names CC.COLORS) w) as [e|].
    + destruct Hf as (_ & ->). auto.
    + destruct (Nat.iter _ _ _). rewrite Hf. auto.
  - destruct CC_run_found as (after & Hf).
    specialize (Hf w). rewrite Ea in Hf. specialize (Hf (ltac:(eauto))).
    unfold CC.COLORS in Hf at 1.
    rewrite (loop_assets_file CC.create_one CC_line (fun u => u) CC_create_one_body
               "GutCheckPrimary" _ _ _ tt
               (add_out w ["🎨 Creating GutCheck color assets..."%string]) text
               (names_plain "GutCheckPrimary" "#0891B2" "#06B6D4"
                  (or_intror (or_introl eq_refl))) Ea) in Hf.
    destruct Hf as (_ & ->). exists []. cbn [fst snd trace add_out map].
    rewrite app_nil_r. auto.
  - destruct (CC_run_missing w Ea) as (lines & ->).
    exists []. cbn [fst snd trace add_out map]. rewrite app_nil_r. auto.
Qed.



(* ===================================================================== *)
(** ** The file system after a successful run *)
(* ===================================================================== *)

Lemma iteration_confined line n l d w :
  confined [n] w (snd (iteration line n l d w)).
Proof.
  revert w. unfold iteration.
  apply bind_confined; [intros w; apply print_confined|intros _].
  apply bind_confined; [apply mkdir_confined; left; reflexivity|intros _].
  apply bind_confined; [intros w; apply lift_confined|intros j].
  apply write_json_confined. left. reflexivity.
Qed.

Lemma COLORS_names_nodup : NoDup (names G.COLORS) /\ NoDup (names CC.COLORS).
Proof. split; apply (bool_decide_eq_true_1 _); vm_compute; reflexivity. Qed.

Lemma iteration_frame line n l d w p :
  p <> colorset n -> p <> contents n ->
  fs (snd (iteration line n l d w)) !! p = fs w !! p.
Proof.
  intros H1 H2.
  destruct (iteration_confined line n l d w) as [_ Hf].
  destruct (Hf p) as [E|[(n0 & [<-|[]] & -> & _)|(n0 & [<-|[]] & -> & _)]];
    [exact E|exfalso; apply H1; reflexivity|exfalso; apply H2; reflexivity].
Qed.

Section FinalState.

Context {S : Type}.
Variable body : S -> string * (string * string) -> M S.
Variable line : string -> string.
Variable next : S -> S.

Hypothesis body_iteration :
  forall s n l d w,
    plain n ->
    body s (n, (l, d)) w
    = match iteration (line n) n l d w with
      | (Ok _, w') => (Ok (next s), w')
      | (Raise e, w') => (Raise e, w')
      end.

Lemma loop_final entries :
  Forall (fun e => plain (fst e)) entries ->
  NoDup (names entries) ->
  forall s w s' w',
    for_each entries body s w = (Ok s', w') ->
    (forall n l d,
        In (n, (l, d)) entries ->
        fs w' !! colorset n = Some Dir
        /\ exists j, G.create_color_json l d = Ok j
                     /\ fs w' !! contents n = Some (File (Json.dumps j)))
    /\ (forall p,
          (forall n, In n (names entries) -> p <> colorset n /\ p <> contents n) ->
          fs w' !! p = fs w !! p).
Proof.
  induction 1 as [|[n [l d]] entries Hp _ IH]; intros Hnd s w s' w' H.
  - injection H as <- <-. split; [intros ? ? ? []|reflexivity].
  - cbn [fst] in Hp. cbn [for_each] in H. unfold bind in H.
    rewrite (body_iteration _ _ _ _ _ Hp) in H.
    pose proof (iteration_frame (line n) n l d w) as Hfr.
    destruct (iteration (line n) n l d w) as [[[]|e] w1] eqn:E1;
      cbv beta iota in H; [|discriminate H].
    cbn [snd] in Hfr.
    apply iteration_ok in E1 as (_ & evs1 & j & _ & _ & Hj & Hct & Hcs).
    cbn [names map fst] in Hnd. apply NoDup_cons in Hnd as [Hnin Hnd].
    rewrite list_elem_of_In in Hnin.
    destruct (IH Hnd _ _ _ _ H) as [IH1 IH2]. fold (names entries) in Hnin.
    assert (Hout : forall n', In n' (names entries) ->
                     colorset n <> colorset n' /\ colorset n <> contents n').
    { intros n' Hn'. split; [|apply colorset_ne_contents].
      intros E. apply colorset_inj in E. subst n'. exact (Hnin Hn'). }
    assert (Hout' : forall n', In n' (names entries) ->
                     contents n <> colorset n' /\ contents n <> contents n').
    { intros n' Hn'. split.
      - intros E. exact (colorset_ne_contents _ _ (eq_sym E)).
      - intros E. apply contents_inj in E. subst n'. exact (Hnin Hn'). }
    split.
    + intros n0 l0 d0 [E|Hin].
      * injection E as <- <- <-.
        rewrite (IH2 _ Hout), (IH2 _ Hout'). eauto.
      * apply IH1, Hin.
    + intros p Hpn. rewrite IH2.
      * apply Hfr; apply (Hpn n); left; reflexivity.
      * intros n' Hn'. apply Hpn. right. exact Hn'.
Qed.

End FinalState.

Lemma G_success_state (w w' : world) :
  G.run w = (Exited 0, w') ->
  fs w !! assets = Some Dir
  /\ (forall n l d,
        In (n, (l, d)) G.COLORS ->
        fs w' !! colorset n = Some Dir
        /\ exists j, G.create_color_json l d = Ok j
                     /\ fs w' !! contents n = Some (File (Json.dumps j)))
  /\ (forall p,
        (forall n, In n (names G.COLORS) -> p <> colorset n /\ p <> contents n) ->
        fs w' !! p = fs w !! p).
Proof.
  intros Hrun.
  assert (Ha : fs w !! assets = Some Dir).
  { destruct (G_run_exact w) as (? & Ho & _). rewrite Hrun in Ho. cbn [fst] in Ho.
    unfold expected_outcome in Ho.
    destruct (fs w !! assets) as [[|?]|]; try discriminate Ho. reflexivity. }
  split; [exact Ha|].
  destruct G_run_found as (before & after & Hf).
  specialize (Hf w). rewrite Ha in Hf. specialize (Hf (ltac:(eauto))).
  destruct (for_each G.COLORS G.create_one 0 (add_out w before))
    as [[count|e] w1] eqn:El.
  - destruct Hf as [_ Hr]. rewrite Hr in Hrun. injection Hrun as <-.
    exact (loop_final G.create_one G_line (fun c => c + 1)
             (fun s n l d w0 Hp => G_create_one_iteration s n l d w0 Hp)
             G.COLORS (proj1 COLORS_plain)
             (proj1 COLORS_names_nodup)
             _ _ _ _ El).
  - destruct Hf as (_ & _ & Hr). rewrite Hr in Hrun. discriminate Hrun.
Qed.

Lemma CC_success_state (w w' : world) :
  CC.run w = (Exited 0, w') ->
  fs w !! assets = Some Dir
  /\ (forall n l d,
        In (n, (l, d)) CC.COLORS ->
        fs w' !! colorset n = Some Dir
        /\ exists j, G.create_color_json l d = Ok j
                     /\ fs w' !! contents n = Some (File (Json.dumps j)))
  /\ (forall p,
        (forall n, In n (names CC.COLORS) -> p <> colorset n /\ p <> contents n) ->
        fs w' !! p = fs w !! p).
Proof.
  intros Hrun.
  assert (Ha : fs w !! assets = Some Dir).
  { destruct (CC_run_exact w) as (? & Ho & _). rewrite Hrun in Ho. cbn [fst] in Ho.
    unfold expected_outcome in Ho.
    destruct (fs w !! assets) as [[|?]|]; try discriminate Ho. reflexivity. }
  split; [exact Ha|].
  destruct CC_run_found as (after & Hf).
  specialize (Hf w). rewrite Ha in Hf. specialize (Hf (ltac:(eauto))).
  destruct (for_each CC.COLORS CC.create_one tt _) as [[[]|e] w1] eqn:El.
  - rewrite Hf in Hrun. injection Hrun as <-.
    exact (loop_final CC.create_one CC_line (fun u => u) CC_create_one_body
             CC.COLORS (proj2 COLORS_plain) (proj2 COLORS_names_nodup)
             _ _ _ _ El).
  - destruct Hf as (_ & Hr). rewrite Hr in Hrun. discriminate Hrun.
Qed.



Section Rerun.

Variable tbl : list (string * (string * string)).
Variables w1 w2 w3 : world.

Hypothesis first_run :
  fs w1 !! assets = Some Dir
  /\ (forall n l d,
        In (n, (l, d)) tbl ->
        fs w2 !! colorset n = Some Dir
        /\ exists j, G.create_color_json l d = Ok j
                     /\ fs w2 !! contents n = Some (File (Json.dumps j)))
  /\ (forall p,
        (forall n, In n (names tbl) -> p <> colorset n /\ p <> contents n) ->
        fs w2 !! p = fs w1 !! p).

Lemma ready_after_success : ready (names tbl) w2 = true.
Proof.
  destruct first_run as (Ha & H1 & H2). unfold ready.
  rewrite H2.
  2:{ intros n _. split; [apply assets_ne_colorset|apply assets_ne_contents]. }
  rewrite Ha. cbn [is_dir andb]. apply forallb_forall. intros n Hn.
  apply in_map_iff in Hn as ([n0 [l d]] & <- & Hin). cbv beta. cbn [fst].
  destruct (H1 _ _ _ Hin) as (-> & j & _ & ->). reflexivity.
Qed.

Hypothesis second_run :
  (forall n l d,
        In (n, (l, d)) tbl ->
        fs w3 !! colorset n = Some Dir
        /\ exists j, G.create_color_json l d = Ok j
                     /\ fs w3 !! contents n = Some (File (Json.dumps j)))
  /\ (forall p,
        (forall n, In n (names tbl) -> p <> colorset n /\ p <> contents n) ->
        fs w3 !! p = fs w2 !! p).

Lemma same_after_rerun : fs w3 = fs w2.
Proof.
  destruct first_run as (_ & H1 & _). destruct second_run as (K1 & K2).
  apply map_eq. intros p.
  destruct (in_dec (fun x y : path => decide (x = y)) p
              (map colorset (names tbl) ++ map contents (names tbl))) as [Hin|Hout].
  - apply in_app_or in Hin as [Hin|Hin];
      apply in_map_iff in Hin as (n & <- & Hn);
      apply in_map_iff in Hn as ([n0 [l d]] & <- & Hin); cbn [fst].
    + destruct (H1 _ _ _ Hin) as (E1 & _). destruct (K1 _ _ _ Hin) as (E2 & _).
      exact (eq_trans E2 (eq_sym E1)).
    + destruct (H1 _ _ _ Hin) as (_ & j & Hj & E1).
      destruct (K1 _ _ _ Hin) as (_ & j' & Hj' & E2).
      rewrite Hj in Hj'. injection Hj' as <-.
      exact (eq_trans E2 (eq_sym E1)).
  - apply K2. intros n Hn. split; intros ->; apply Hout, in_or_app.
    + left. apply in_map, Hn.
    + right. apply in_map, Hn.
Qed.

End Rerun.



(* ===================================================================== *)
(** ** What a run never does *)
(* ===================================================================== *)

Section Preserved.

Variable R : world -> world -> Prop.
Hypothesis R_refl : forall w, R w w.
Hypothesis R_trans : forall w1 w2 w3, R w1 w2 -> R w2 w3 -> R w1 w3.
Hypothesis R_print : forall s w, R w (snd (print s w)).
Hypothesis R_mkdir : forall p w, R w (snd (mkdir_exist_ok p w)).
Hypothesis R_write : forall p j w, R w (snd (write_json p j w)).

Lemma bind_rel {A B : Type} (m : M A) (k : A -> M B) :
  (forall w, R w (snd (m w))) ->
  (forall a w, R w (snd (k a w))) ->
  forall w, R w (snd (bind m k w)).
Proof.
  intros Hm Hk w. unfold bind. specialize (Hm w).
  destruct (m w) as [[a|e] w1]; [|exact Hm].
  eapply R_trans; [exact Hm|apply Hk].
Qed.

Lemma for_each_rel {A S : Type} (items : list A) (body : S -> A -> M S) :
  (forall s x w, R w (snd (body s x w))) ->
  forall s w, R w (snd (for_each items body s w)).
Proof.
  intros Hb. induction items as [|x items IH]; intros s w.
  - apply R_refl.
  - cbn [for_each]. apply bind_rel; [apply Hb|]. intros s' w'. apply IH.
Qed.

Ltac rel_prints :=
  repeat lazymatch goal with
         | |- forall w, R w (snd (bind (print _) _ w)) =>
             apply bind_rel; [intros ?; apply R_print|intros _]
         end.

Lemma G_create_one_rel cnt entry w : R w (snd (G.create_one cnt entry w)).
Proof.
  revert w. destruct entry as [name [light dark]]. unfold G.create_one.
  rel_prints.
  apply bind_rel; [apply R_mkdir|intros _].
  apply bind_rel; [intros w; apply R_refl|intros j].
  apply bind_rel; [apply R_write|intros _].
  intros w. apply R_refl.
Qed.

Lemma CC_create_one_rel u entry w : R w (snd (CC.create_one u entry w)).
Proof.
  revert w. destruct entry as [name [light dark]]. unfold CC.create_one.
  rel_prints.
  apply bind_rel; [apply R_mkdir|intros _].
  apply bind_rel; [intros w; apply R_refl|intros j].
  apply R_write.
Qed.

Lemma G_run_rel w : R w (snd (G.run w)).
Proof.
  unfold G.run. rewrite run_script_world. revert w. unfold G.script.
  apply bind_rel; [|intros status w; apply R_refl].
  unfold G.main. rel_prints.
  apply bind_rel; [intros w; apply R_refl|intros found].
  destruct found; cbn [negb].
  - rel_prints.
    apply bind_rel; [apply for_each_rel; intros; apply G_create_one_rel|intros cnt].
    rel_prints.
    apply bind_rel.
    { apply for_each_rel. intros s [name [light dark]] w. apply R_print. }
    intros _. rel_prints. intros w. apply R_refl.
  - rel_prints. intros w. apply R_refl.
Qed.

Lemma CC_run_rel w : R w (snd (CC.run w)).
Proof.
  unfold CC.run. rewrite run_script_world. revert w. unfold CC.script.
  apply bind_rel; [intros w; apply R_refl|intros found].
  apply bind_rel.
  { destruct found; cbn [negb].
    - intros w. apply R_refl.
    - rel_prints. intros w. apply R_refl. }
  intros _. rel_prints.
  apply bind_rel; [apply for_each_rel; intros; apply CC_create_one_rel|intros _].
  rel_prints. intros w. apply R_print.
Qed.

End Preserved.

Lemma kept_refl w : kept w w.
Proof. intros p. auto. Qed.

Lemma kept_trans w1 w2 w3 : kept w1 w2 -> kept w2 w3 -> kept w1 w3.
Proof.
  intros H1 H2 p. destruct (H1 p) as [A1 B1]. destruct (H2 p) as [A2 B2]. auto.
Qed.

Lemma kept_print s w : kept w (snd (print s w)).
Proof. intros p. cbn. auto. Qed.

Lemma node_at_lookup (m : gmap (list string) node) (p : list string) :
  Pathlib.node_at m p = None -> m !! p = None.
Proof. destruct p; [discriminate|]. intros H. exact H. Qed.

Lemma node_at_not_dir (m : gmap (list string) node) (p : list string) :
  Pathlib.node_at m p <> Some Dir -> m !! p <> Some Dir.
Proof.
  destruct p; [intros H; exfalso; apply H; reflexivity|]. intros H. exact H.
Qed.

Lemma kept_mkdir p w : kept w (snd (mkdir_exist_ok p w)).
Proof.
  unfold mkdir_exist_ok.
  destruct (Pathlib.node_at (fs w) (Pathlib.parent p)) as [[|?]|]; try apply kept_refl.
  destruct (Pathlib.node_at (fs w) p) as [[|?]|] eqn:Ep; try apply kept_refl.
  apply node_at_lookup in Ep. intros q. cbn [snd fs].
  destruct (decide (p = q)) as [<-|Hne].
  - rewrite Ep. split; intros H; discriminate H.
  - rewrite lookup_insert_ne by exact Hne. auto.
Qed.

Lemma kept_write p j w : kept w (snd (write_json p j w)).
Proof.
  unfold write_json.
  destruct (Pathlib.node_at (fs w) (Pathlib.parent p)) as [[|?]|]; try apply kept_refl.
  assert (H : Pathlib.node_at (fs w) p <> Some Dir ->
              kept w (World (<[p := File (Json.dumps j)]> (fs w)) (out w)
                        (trace w ++ [Write p (Json.dumps j)]))).
  { intros Hn. apply node_at_not_dir in Hn. intros q. cbn [fs].
    destruct (decide (p = q)) as [<-|Hne].
    - rewrite lookup_insert_eq. split; [intros E; exfalso; exact (Hn E)|reflexivity].
    - rewrite lookup_insert_ne by exact Hne. auto. }
  destruct (Pathlib.node_at (fs w) p) as [[|?]|]; [apply kept_refl| |];
    apply H; discriminate.
Qed.

(** X9: no run removes anything or changes the kind of a node: whatever the
    file system and however the run ends, a directory is still a
    directory afterwards and a regular file is still a regular file. *)
Theorem run_keeps_nodes (w : world) :
  kept w (snd (G.run w)) /\ kept w (snd (CC.run w)).
Proof.
  split.
  - apply (G_run_rel kept kept_refl kept_trans kept_print kept_mkdir kept_write).
  - apply (CC_run_rel kept kept_refl kept_trans kept_print kept_mkdir kept_write).
Qed.

Lemma names_disjoint (n : string) :
  In n (names G.COLORS) -> In n (names CC.COLORS) -> False.
Proof.
  assert (H : forallb (fun a => negb (existsb (String.eqb a) (names CC.COLORS)))
                (names G.COLORS) = true) by (vm_compute; reflexivity).
  rewrite forallb_forall in H. intros HG HC. specialize (H n HG).
  apply negb_true_iff in H.
  assert (E : existsb (String.eqb n) (names CC.COLORS) = true).
  { apply existsb_exists. exists n. split; [exact HC|apply String.eqb_refl]. }
  rewrite E in H. discriminate H.
Qed.

Lemma confined_elsewhere ns w w' n :
  confined ns w w' -> ~ In n ns ->
  fs w' !! colorset n = fs w !! colorset n
  /\ fs w' !! contents n = fs w !! contents n.
Proof.
  intros [_ Hf] Hn. split.
  - destruct (Hf (colorset n)) as [E|[(n' & Hn' & E & _)|(n' & _ & E & _)]].
    + exact E.
    + apply colorset_inj in E. subst n'. contradiction.
    + exfalso. exact (colorset_ne_contents _ _ E).
  - destruct (Hf (contents n)) as [E|[(n' & _ & E & _)|(n' & Hn' & E & _)]].
    + exact E.
    + exfalso. exact (colorset_ne_contents _ _ (eq_sym E)).
    + apply contents_inj in E. subst n'. contradiction.
Qed.


(* ===================================================================== *)
(** ** The text of the files *)
(* ===================================================================== *)

Lemma plain_text_app (a b : string) :
  plain_text (a +:+ b) = plain_text a && plain_text b.
Proof.
  induction a as [|c a IH]; [reflexivity|].
  change (String c a +:+ b) with (String c (a +:+ b)).
  cbn [plain_text]. rewrite IH, andb_assoc. reflexivity.
Qed.

Lemma escape_char_plain (c : ascii) : plain_text (Json.escape_char c) = true.
Proof. revert c. apply forall_ascii. vm_compute. reflexivity. Qed.

Lemma escape_plain (s : string) : plain_text (Json.escape s) = true.
Proof.
  induction s as [|c s IH]; [reflexivity|].
  cbn [Json.escape]. rewrite plain_text_app, escape_char_plain, IH. reflexivity.
Qed.

Lemma quote_plain (s : string) : plain_text (Json.quote s) = true.
Proof.
  unfold Json.quote. cbn [plain_text].
  rewrite plain_text_app, escape_plain. reflexivity.
Qed.

Lemma replicate_spaces_plain (n : nat) : plain_text (PyStr.replicate n " ") = true.
Proof. induction n as [|n IH]; [reflexivity|]. cbn. exact IH. Qed.

Lemma newline_indent_plain (lvl : nat) : plain_text (Json.newline_indent lvl) = true.
Proof. unfold Json.newline_indent. cbn [plain_text]. apply replicate_spaces_plain. Qed.

Lemma join_plain (sep : string) (items : list string) :
  plain_text sep = true ->
  List.Forall (fun s => plain_text s = true) items ->
  plain_text (PyStr.join sep items) = true.
Proof.
  intros Hs. induction 1 as [|x items Hx _ IH]; [reflexivity|].
  cbn [PyStr.join]. destruct items as [|y items]; [exact Hx|].
  rewrite !plain_text_app, Hx, Hs, IH. reflexivity.
Qed.

Lemma block_plain (op cl : string) (lvl : nat) (items : list string) :
  plain_text op = true -> plain_text cl = true ->
  List.Forall (fun s => plain_text s = true) items ->
  plain_text (Json.block op cl lvl items) = true.
Proof.
  intros Ho Hc Hi. unfold Json.block. destruct items as [|x items].
  - rewrite plain_text_app, Ho, Hc. reflexivity.
  - rewrite !plain_text_app, Ho, Hc, !newline_indent_plain.
    rewrite join_plain; [reflexivity| |exact Hi].
    rewrite plain_text_app, newline_indent_plain. reflexivity.
Qed.

Lemma pretty_N_go_plain (x : N) (s : string) :
  plain_text s = true -> plain_text (pretty_N_go x s) = true.
Proof.
  revert s. induction (N.lt_wf_0 x) as [x _ IH]; intros s Hs.
  assert (x = 0 \/ 0 < x)%N as [->|Hx] by lia.
  - rewrite pretty_N_go_0. exact Hs.
  - rewrite pretty_N_go_step by exact Hx. apply IH.
    + apply N.div_lt; [exact Hx|reflexivity].
    + cbn [plain_text]. rewrite Hs, andb_true_r.
      unfold pretty_N_char. repeat case_match; reflexivity.
Qed.

Lemma pretty_Z_plain (n : Z) : plain_text (pretty n) = true.
Proof.
  assert (HN : forall x : N, plain_text (pretty x) = true).
  { intros x. unfold pretty, pretty_N. destruct (decide (x = 0%N)); [reflexivity|].
    apply pretty_N_go_plain. reflexivity. }
  destruct n as [|p|p]; [reflexivity|apply HN|].
  unfold pretty, pretty_Z. rewrite plain_text_app. cbn [plain_text andb printable].
  exact (HN (Npos p)).
Qed.

Lemma dumps_at_plain (j : json) : forall lvl, plain_text (Json.dumps_at lvl j) = true.
Proof.
  revert j. fix IH 1. intros [s|n|l|d] lvl; cbn [Json.dumps_at].
  - apply quote_plain.
  - apply pretty_Z_plain.
  - apply block_plain; [reflexivity|reflexivity|].
    revert l. fix IHl 1. intros [|x l]; cbn [map]; constructor; [apply IH|apply IHl].
  - apply block_plain; [reflexivity|reflexivity|].
    revert d. fix IHd 1. intros [|[k v] d]; cbn [map]; constructor; [|apply IHd].
    cbn [fst snd]. rewrite !plain_text_app, quote_plain, IH. reflexivity.
Qed.

Lemma writes_plain_refl w : writes_plain w w.
Proof.
  split.
  - exists []. rewrite app_nil_r. split; [reflexivity|constructor].
  - intros p text H. left. exact H.
Qed.

Lemma writes_plain_trans w1 w2 w3 :
  writes_plain w1 w2 -> writes_plain w2 w3 -> writes_plain w1 w3.
Proof.
  intros [(e1 & Ht1 & Hp1) Hf1] [(e2 & Ht2 & Hp2) Hf2]. split.
  - exists (e1 ++ e2). rewrite Ht2, Ht1, app_assoc. split; [reflexivity|].
    apply Forall_app. split; assumption.
  - intros p text H. destruct (Hf2 p text H) as [H'|H']; [|right; exact H'].
    apply Hf1, H'.
Qed.

Lemma writes_plain_print s w : writes_plain w (snd (print s w)).
Proof.
  split.
  - exists []. cbn. rewrite app_nil_r. split; [reflexivity|constructor].
  - intros p text H. left. exact H.
Qed.

Lemma writes_plain_mkdir p w : writes_plain w (snd (mkdir_exist_ok p w)).
Proof.
  unfold mkdir_exist_ok.
  destruct (Pathlib.node_at (fs w) (Pathlib.parent p)) as [[|?]|];
    try apply writes_plain_refl.
  destruct (Pathlib.node_at (fs w) p) as [[|?]|]; try apply writes_plain_refl.
  split.
  - exists [Mkdir p]. split; [reflexivity|]. constructor; [exact I|constructor].
  - intros q text. cbn [snd fs]. destruct (decide (p = q)) as [<-|Hne].
    + rewrite lookup_insert_eq. discriminate.
    + rewrite lookup_insert_ne by exact Hne. auto.
Qed.

Lemma writes_plain_write p j w : writes_plain w (snd (write_json p j w)).
Proof.
  unfold write_json.
  destruct (Pathlib.node_at (fs w) (Pathlib.parent p)) as [[|?]|];
    try apply writes_plain_refl.
  assert (H : writes_plain w (World (<[p := File (Json.dumps j)]> (fs w)) (out w)
                                (trace w ++ [Write p (Json.dumps j)]))).
  { split.
    - exists [Write p (Json.dumps j)]. split; [reflexivity|].
      constructor; [apply dumps_at_plain|constructor].
    - intros q text. cbn [fs]. destruct (decide (p = q)) as [<-|Hne].
      + rewrite lookup_insert_eq. intros E. injection E as <-.
        right. apply dumps_at_plain.
      + rewrite lookup_insert_ne by exact Hne. auto. }
  destruct (Pathlib.node_at (fs w) p) as [[|?]|];
    [apply writes_plain_refl|exact H|exact H].
Qed.

(** X11: whatever strings it holds, a dictionary is written as printable
    ASCII characters and line feeds; so every file a run writes, and
    every file of the file system that it changed, is plain text of
    that kind. *)
Theorem written_text_is_plain (w : world) :
  (forall j, plain_text (Json.dumps j) = true)
  /\ writes_plain w (snd (G.run w))
  /\ writes_plain w (snd (CC.run w)).
Proof.
  split; [intros j; apply dumps_at_plain|]. split.
  - apply (G_run_rel writes_plain writes_plain_refl writes_plain_trans
             writes_plain_print writes_plain_mkdir writes_plain_write).
  - apply (CC_run_rel writes_plain writes_plain_refl writes_plain_trans
             writes_plain_print writes_plain_mkdir writes_plain_write).
Qed.

(* ===================================================================== *)
(** ** [create_color_json] on arbitrary strings *)
(* ===================================================================== *)

Lemma hex_to_rgb_slices (s : string) :
  (slices_ok (PyStr.lstrip "#" s) = true -> exists t, G.hex_to_rgb s = Ok t)
  /\ (slices_ok (PyStr.lstrip "#" s) = false -> G.hex_to_rgb s = Raise ValueError).
Proof.
  rewrite G_hex_to_rgb_spec. unfold slices_ok, slice_values, literal_ok.
  destruct (literal_value (PyStr.slice 0 2 _)); cbn [andb];
    [|split; [discriminate|reflexivity]].
  destruct (literal_value (PyStr.slice 2 4 _)); cbn [andb];
    [|split; [discriminate|reflexivity]].
  destruct (literal_value (PyStr.slice 4 6 _)); cbn [andb];
    [|split; [discriminate|reflexivity]].
  split; [eauto|discriminate].
Qed.


(** X13: the schema does not depend on the table: for every pair of
    [#RRGGBB] strings the two scripts build the fixed structure, with
    each byte rendered as its 0-1 value to three decimal places. *)
Theorem schema_for_any_hex_color (light dark : string) (lr lg lb dr dg db : Z) :
  hex_bytes light = Some (lr, lg, lb) ->
  hex_bytes dark = Some (dr, dg, db) ->
  G.create_color_json light dark
  = Ok (schema (component lr) (component lg) (component lb)
               (component dr) (component dg) (component db))
  /\ CC.data light dark
     = Ok (schema (component lr) (component lg) (component lb)
                  (component dr) (component dg) (component db))
  /\ Forall (fun n => rendered_3dp n (component n) = true)
            [lr; lg; lb; dr; dg; db].
Proof.
  intros Hl Hd.
  pose proof (hex_color_json _ _ _ _ _ _ _ _ Hl Hd) as HG.
  destruct (hex_bytes_bounds _ _ _ _ Hl) as (? & ? & ?).
  destruct (hex_bytes_bounds _ _ _ _ Hd) as (? & ? & ?).
  split; [exact HG|].
  split; [rewrite <- create_color_json_data_agree; exact HG|].
  repeat (constructor; [apply component_rendered; assumption|]). constructor.
Qed.

Lemma schema_for_any_hex_color_witness :
  G.create_color_json "#123456" "#abcdef"
  = Ok (schema (component 18) (component 52) (component 86)
               (component 171) (component 205) (component 239)).
Proof.
  exact (proj1 (schema_for_any_hex_color "#123456" "#abcdef"
                  18 52 86 171 205 239 eq_refl eq_refl)).
Defined.

Lemma first_obstacle_none (ns : list string) (w : world) :
  first_obstacle ns w = None
  <-> forallb (fun n => negb (is_file (fs w !! colorset n))
                        && negb (is_dir (fs w !! contents n))) ns = true.
Proof.
  induction ns as [|n ns IH]; [split; reflexivity|].
  cbn [first_obstacle forallb]. unfold obstacle.
  destruct (is_file (fs w !! colorset n)); cbn [negb andb]; [split; discriminate|].
  destruct (is_dir (fs w !! contents n)); cbn [negb andb]; [split; discriminate|].
  exact IH.
Qed.

Lemma expected_outcome_ready (ns : list string) (w : world) :
  expected_outcome ns w = Exited 0 <-> ready ns w = true.
Proof.
  unfold expected_outcome, ready.
  destruct (fs w !! assets) as [[|?]|]; cbn [is_dir andb];
    try (split; discriminate).
  rewrite <- first_obstacle_none.
  destruct (first_obstacle ns w); split; congruence.
Qed.

Lemma expected_outcome_status (ns : list string) (w : world) :
  exit_status (expected_outcome ns w) = if ready ns w then 0 else 1.
Proof.
  pose proof (expected_outcome_ready ns w) as H.
  destruct (ready ns w).
  - rewrite (proj2 H eq_refl). reflexivity.
  - unfold expected_outcome in *.
    destruct (fs w !! assets) as [[|?]|]; try reflexivity.
    destruct (first_obstacle ns w); [reflexivity|].
    exfalso. destruct H as [H _]. specialize (H eq_refl). discriminate H.
Qed.


(* ===================================================================== *)
(** ** Standard output *)
(* ===================================================================== *)

Lemma G_success_out :
  exists lines, forall w w', G.run w = (Exited 0, w') -> out w' = out w ++ lines.
Proof.
  destruct G_run_found as (before & after & Hf).
  exists (before ++ map G_line (names G.COLORS)
            ++ (([""%string; PyStr.replicate 50 "="]
                   ++ [G_success_message 17]) ++ after)).
  intros w w' Hrun.
  assert (Hs : is_Some (fs w !! assets)).
  { destruct (fs w !! assets) eqn:Ea; [eauto|].
    destruct (G_run_missing w Ea) as (? & _ & Hr). rewrite Hr in Hrun. discriminate Hrun. }
  specialize (Hf w Hs).
  destruct (for_each G.COLORS G.create_one 0 (add_out w before))
    as [[count|e] w1] eqn:El.
  - destruct Hf as [_ Hr]. rewrite Hr in Hrun. injection Hrun as <-.
    apply (loop_ok G.create_one G_line (fun c => c + 1)
             (fun s n l d w0 Hp => G_create_one_iteration s n l d w0 Hp)
             G.COLORS (proj1 COLORS_plain)) in El as (-> & Ho & _).
    cbn [add_out out] in *. rewrite Ho, <- !app_assoc. reflexivity.
  - destruct Hf as (_ & _ & Hr). rewrite Hr in Hrun. discriminate Hrun.
Qed.

Lemma CC_success_out :
  exists lines, forall w w', CC.run w = (Exited 0, w') -> out w' = out w ++ lines.
Proof.
  destruct CC_run_found as (after & Hf).
  exists (["🎨 Creating GutCheck color assets..."%string]
            ++ map CC_line (names CC.COLORS)
            ++ ([CC_success_message 17] ++ after)).
  intros w w' Hrun.
  assert (Hs : is_Some (fs w !! assets)).
  { destruct (fs w !! assets) eqn:Ea; [eauto|].
    destruct (CC_run_missing w Ea) as (? & Hr). rewrite Hr in Hrun. discriminate Hrun. }
  specialize (Hf w Hs).
  destruct (for_each CC.COLORS CC.create_one tt _) as [[[]|e] w1] eqn:El.
  - rewrite Hf in Hrun. injection Hrun as <-.
    apply (loop_ok CC.create_one CC_line (fun u => u) CC_create_one_body
             CC.COLORS (proj2 COLORS_plain)) in El as (_ & Ho & _).
    cbn [add_out out] in *. rewrite Ho, <- !app_assoc. reflexivity.
  - destruct Hf as (_ & Hr). rewrite Hr in Hrun. discriminate Hrun.
Qed.

Lemma G_missing_out (w : world) :
  fs w !! assets = None -> out (snd (G.run w)) = out w ++ G_missing_output.
Proof.
  intros Ea. unfold G.run. rewrite run_script_world.
  unfold G.script, bind at 1.
  unfold G.main.
  repeat (rewrite bind_print; cbv beta).
  unfold bind at 1. change G.assets_path with assets.
  rewrite path_exists_missing by exact Ea. cbv beta iota. cbn [negb].
  repeat (rewrite bind_print; cbv beta).
  rewrite !add_out_add_out. reflexivity.
Qed.

Lemma CC_missing_out (w : world) :
  fs w !! assets = None -> out (snd (CC.run w)) = out w ++ CC_missing_output.
Proof.
  intros Ea. unfold CC.run. rewrite run_script_world.
  unfold CC.script. unfold bind at 1. change CC.assets_path with assets.
  rewrite path_exists_missing by exact Ea. cbv beta iota. cbn [negb].
  unfold bind at 1. rewrite bind_print. cbv beta. reflexivity.
Qed.

